(** * Mend: the eating / reflection signal engine

  A shallow embedding of the decision logic of
  - [app/services/audio_processor.py]  (module [AudioProcessor]),
  - [app/services/sentiment_analyzer.py] (module [SentimentAnalyzer]),
  - [app/services/feedback_manager.py] (module [FeedbackManager]),
  with the properties the specification states about them.

  Python floats are IEEE binary64 values, embedded as Rocq's primitive
  floats, so that every comparison and every addition below rounds the way
  the interpreter does.  Python ints are [Z].  Code that can raise lives in
  a small exception monad; [try ... except Exception] is [try_except]. *)

From Stdlib Require Import ZArith QArith Bool Ascii String List Lia Lqa.
From Stdlib Require Import Strings.Byte Sorting.Permutation.
From Stdlib Require Import Floats.PrimFloat Floats.SpecFloat Floats.FloatOps.
From Stdlib Require Import Floats.FloatAxioms.
From stdpp Require Import gmap strings.

Set Warnings "-inexact-float,-register-all".
Local Open Scope string_scope.
Local Open Scope Z_scope.

(* ===================================================================== *)
(** ** Exceptions *)
(* ===================================================================== *)

Module Py.

(** The classes of [Exception] the embedded code can meet. *)
Inductive exn :=
| TypeError | ValueError | AttributeError | IndexError | OverflowError
| JSONDecodeError | ValidationError
| ExternalError (what : string).

(** Outcome of a computation: a value, or a raised exception. *)
Inductive res (A : Type) :=
| Ret (a : A)
| Raise (e : exn).
Arguments Ret {A} a.
Arguments Raise {A} e.

Definition bind {A B} (m : res A) (k : A -> res B) : res B :=
  match m with
  | Ret a => k a
  | Raise e => Raise e
  end.

(** [try: body except Exception as e: handler e]. *)
Definition try_except {A} (body : res A) (handler : exn -> res A) : res A :=
  match body with
  | Ret a => Ret a
  | Raise e => handler e
  end.

Definition raises {A} (m : res A) : Prop := exists e, m = Raise e.

(** Code that also talks to a remote service: it threads the log of the
    requests sent so far (oldest first).  A request that was sent stays in
    the log when the code raises afterwards. *)
Definition io (E A : Type) : Type := list E -> res A * list E.

Definition io_ret {E A} (a : A) : io E A := fun log => (Ret a, log).

Definition io_lift {E A} (m : res A) : io E A := fun log => (m, log).

Definition io_bind {E A B} (m : io E A) (k : A -> io E B) : io E B :=
  fun log =>
    match m log with
    | (Ret a, log') => k a log'
    | (Raise e, log') => (Raise e, log')
    end.

Definition io_try_except {E A} (body : io E A) (handler : exn -> io E A)
  : io E A :=
  fun log =>
    match body log with
    | (Ret a, log') => (Ret a, log')
    | (Raise e, log') => handler e log'
    end.

(** Send [req]; [answer] is what the service does with it. *)
Definition io_request {E A} (req : E) (answer : res A) : io E A :=
  fun log => (answer, (log ++ [req])%list).

End Py.

Import Py.

(** Sequencing of two statements: the second runs when the first did not
    raise.  [<-] is for code that only computes, [<~] for code that may send
    requests. *)
Notation "x <- m ; k" := (bind m (fun x => k))
  (at level 20, m at level 100, k at level 200, only parsing).
Notation "' p <- m ; k" := (bind m (fun x => let 'p := x in k))
  (at level 20, p pattern, m at level 100, k at level 200, only parsing).
Notation "x <~ m ; k" := (io_bind m (fun x => k))
  (at level 20, m at level 100, k at level 200, only parsing).
Notation "' p <~ m ; k" := (io_bind m (fun x => let 'p := x in k))
  (at level 20, p pattern, m at level 100, k at level 200, only parsing).

(* ===================================================================== *)
(** ** Python numbers *)
(* ===================================================================== *)

Module PyNum.

(** A dictionary value as the detector sees it: an [int] (also [bool]), a
    [float], or a value of a type that does not order against numbers
    ([str], [None], [list], ...). *)
Inductive pyval :=
| PyInt (z : Z)
| PyFloat (f : float)
| PyOther.

(** Exact comparison of an integer with a float, as [float_richcompare]
    performs it: no rounding of the integer.  [None] when the float is a
    NaN (every ordered comparison is then false). *)
Definition SF_compare_Z (z : Z) (x : spec_float) : option comparison :=
  match x with
  | S754_nan => None
  | S754_zero _ => Some (z ?= 0)
  | S754_infinity s => Some (if s then Gt else Lt)
  | S754_finite s m e =>
      let v := if s then Z.neg m else Z.pos m in
      if 0 <=? e then Some (z ?= v * 2 ^ e) else Some (z * 2 ^ (- e) ?= v)
  end.

Definition Z_compare_float (z : Z) (f : float) : option comparison :=
  SF_compare_Z z (Prim2SF f).

Definition is_cmp (c : comparison) (o : option comparison) : bool :=
  match o, c with
  | Some Lt, Lt | Some Eq, Eq | Some Gt, Gt => true
  | _, _ => false
  end.

(** [a < b]. *)
Definition py_lt (a b : pyval) : res bool :=
  match a, b with
  | PyInt x, PyInt y => Ret (x <? y)
  | PyFloat x, PyFloat y => Ret (PrimFloat.ltb x y)
  | PyInt x, PyFloat y => Ret (is_cmp Lt (Z_compare_float x y))
  | PyFloat x, PyInt y => Ret (is_cmp Gt (Z_compare_float y x))
  | _, _ => Raise TypeError
  end.

(** [a <= b]. *)
Definition py_le (a b : pyval) : res bool :=
  match a, b with
  | PyInt x, PyInt y => Ret (x <=? y)
  | PyFloat x, PyFloat y => Ret (PrimFloat.leb x y)
  | PyInt x, PyFloat y =>
      Ret (is_cmp Lt (Z_compare_float x y) || is_cmp Eq (Z_compare_float x y))
  | PyFloat x, PyInt y =>
      Ret (is_cmp Gt (Z_compare_float y x) || is_cmp Eq (Z_compare_float y x))
  | _, _ => Raise TypeError
  end.

(** [a > b] and [a >= b]. *)
Definition py_gt (a b : pyval) : res bool := py_lt b a.
Definition py_ge (a b : pyval) : res bool := py_le b a.

(** The double nearest to an integer (ties to even). *)
Definition Z2float (z : Z) : float :=
  SF2Prim (binary_normalize prec emax z 0 false).

(** [float(z)]: [OverflowError] past the largest finite double. *)
Definition int_to_float (z : Z) : res float :=
  let x := Z2float z in
  if PrimFloat.is_infinity x then Raise OverflowError else Ret x.

(** [a + b]. *)
Definition py_add (a b : pyval) : res pyval :=
  match a, b with
  | PyInt x, PyInt y => Ret (PyInt (x + y))
  | PyFloat x, PyFloat y => Ret (PyFloat (PrimFloat.add x y))
  | PyInt x, PyFloat y =>
      x' <- int_to_float x; Ret (PyFloat (PrimFloat.add x' y))
  | PyFloat x, PyInt y =>
      y' <- int_to_float y; Ret (PyFloat (PrimFloat.add x y'))
  | _, _ => Raise TypeError
  end.

(** The builtin [sum(xs)]: start at the int [0], add from the left. *)
Definition py_sum (xs : list pyval) : res pyval :=
  fold_left (fun acc x => a <- acc; py_add a x) xs (Ret (PyInt 0)).

(** The builtin [sum] of CPython 3.12 and later on floats: once the running
    total is a float, it is summed with Neumaier's compensation, which is
    added at the end when it is finite and not zero. *)
Definition neumaier_add (st : float * float) (x : float) : float * float :=
  let '(f_result, c) := st in
  let t := PrimFloat.add f_result x in
  let c' :=
    if PrimFloat.leb (PrimFloat.abs x) (PrimFloat.abs f_result)
    then PrimFloat.add c (PrimFloat.add (PrimFloat.sub f_result t) x)
    else PrimFloat.add c (PrimFloat.add (PrimFloat.sub x t) f_result) in
  (t, c').

Definition py_sum_compensated (xs : list float) : res pyval :=
  match xs with
  | [] => Ret (PyInt 0)
  | x :: rest =>
      first <- py_add (PyInt 0) (PyFloat x);
      match first with
      | PyFloat f0 =>
          let '(f_result, c) := fold_left neumaier_add rest (f0, 0%float) in
          if negb (PrimFloat.eqb c 0) && negb (PrimFloat.is_infinity c)
             && negb (PrimFloat.is_nan c)
          then Ret (PyFloat (PrimFloat.add f_result c))
          else Ret (PyFloat f_result)
      | _ => Raise TypeError
      end
  end.

(** The value a [float] field of a pydantic model stores for a number. *)
Definition as_float (v : pyval) : res float :=
  match v with
  | PyInt z => int_to_float z
  | PyFloat f => Ret f
  | PyOther => Raise ValidationError
  end.

End PyNum.

Import PyNum.

(* ===================================================================== *)
(** ** app/services/audio_processor.py *)
(* ===================================================================== *)

Module AudioProcessor.

(** The instance attributes [__init__] sets. *)
Record t := {
  eating_confidence_threshold : float;
  zcr_threshold : float;
  energy_threshold : float
}.

(** [AudioProcessor()]. *)
Definition init : t := {|
  eating_confidence_threshold := 0.6;
  zcr_threshold := 0.15;
  energy_threshold := 0.02
|}.

(** [app.models.AudioAnalysisResult]; [audio_features] defaults to [None]. *)
Record AudioAnalysisResult := {
  eating_detected : bool;
  confidence : float;
  audio_features : option (gmap string pyval)
}.

(** [features.get(key, 0)]. *)
Definition get (features : gmap string pyval) (key : string) (dflt : pyval)
  : pyval :=
  default dflt (features !! key).

(** [lo < x < hi]: [x] is evaluated once, the second comparison only when
    the first holds. *)
Definition py_between (lo x hi : pyval) : res bool :=
  c <- py_lt lo x; if c then py_lt x hi else Ret false.

(** [if cond: confidence_factors.append(w)]. *)
Definition append_if (cond : bool) (w : float) (factors : list pyval)
  : list pyval :=
  if cond then factors ++ [PyFloat w] else factors.

(** [_detect_eating(self, features)]. *)
Definition _detect_eating (self : t) (features : gmap string pyval)
  : res (bool * pyval) :=
  if (size features =? 0)%nat then Ret (false, PyFloat 0)
  else
    try_except
      (let confidence_factors := [] in
       let zcr_mean := get features "zcr_mean" (PyInt 0) in
       c <- py_between (PyFloat 0.05) zcr_mean (PyFloat 0.25);
       let confidence_factors := append_if c 0.3 confidence_factors in
       let rms_mean := get features "rms_mean" (PyInt 0) in
       c <- py_gt rms_mean (PyFloat (energy_threshold self));
       let confidence_factors := append_if c 0.3 confidence_factors in
       let spectral_centroid := get features "spectral_centroid" (PyInt 0) in
       c <- py_gt spectral_centroid (PyInt 1000);
       let confidence_factors := append_if c 0.2 confidence_factors in
       let spectral_rolloff := get features "spectral_rolloff" (PyInt 0) in
       c <- py_gt spectral_rolloff (PyInt 2000);
       let confidence_factors := append_if c 0.2 confidence_factors in
       confidence <- py_sum confidence_factors;
       eating_detected <-
         py_ge confidence (PyFloat (eating_confidence_threshold self));
       Ret (eating_detected, confidence))
      (fun _ => Ret (false, PyFloat 0)).

(** [np.frombuffer(audio_bytes, dtype=np.int16)]: native (little-endian)
    two's-complement samples; [ValueError] when the size of the buffer is
    not a multiple of the element size. *)
Definition int16_of_bytes (lo hi : Byte.byte) : Z :=
  let u := Z.of_N (Byte.to_N lo) + 256 * Z.of_N (Byte.to_N hi) in
  if u <? 32768 then u else u - 65536.

Fixpoint frombuffer_int16 (buf : list Byte.byte) : res (list Z) :=
  match buf with
  | [] => Ret []
  | [_] => Raise ValueError
  | lo :: hi :: rest =>
      xs <- frombuffer_int16 rest; Ret (int16_of_bytes lo hi :: xs)
  end.

(** [.astype(np.float32) / 32768.0] on one sample.  A 16-bit integer over
    2^15 is exact in single precision, so the double holds the same
    number. *)
Definition normalize (sample : Z) : float :=
  PrimFloat.div (Z2float sample) 32768.

(** The signal-processing library the extractor calls.  Each feature
    function yields the first row of the frame matrix, or raises. *)
Class Librosa := {
  zero_crossing_rate : list float -> res (list float);
  rms : list float -> res (list float);
  spectral_centroid : list float -> Z -> res (list float);
  spectral_rolloff : list float -> Z -> res (list float);
  np_mean : list float -> float;
  np_std : list float -> float
}.

Section WithLibrosa.

Context `{Librosa}.

(** [_extract_features(self, audio, sr)]. *)
Definition _extract_features (audio : list float) (sr : Z)
  : res (gmap string pyval) :=
  try_except
    (zcr <- zero_crossing_rate audio;
     let zcr_mean := np_mean zcr in
     let zcr_std := np_std zcr in
     rms <- rms audio;
     let rms_mean := np_mean rms in
     spectral_centroids <- spectral_centroid audio sr;
     let spectral_centroid_mean := np_mean spectral_centroids in
     spectral_rolloff <- spectral_rolloff audio sr;
     let spectral_rolloff_mean := np_mean spectral_rolloff in
     Ret (<["zcr_mean" := PyFloat zcr_mean]>
          (<["zcr_std" := PyFloat zcr_std]>
          (<["rms_mean" := PyFloat rms_mean]>
          (<["spectral_centroid" := PyFloat spectral_centroid_mean]>
          (<["spectral_rolloff" := PyFloat spectral_rolloff_mean]> ∅))))))
    (fun _ => Ret ∅).

(** [analyze_audio(self, audio_bytes, sample_rate)]. *)
Definition analyze_audio (self : t) (audio_bytes : list Byte.byte)
    (sample_rate : Z) : res AudioAnalysisResult :=
  try_except
    (samples <- frombuffer_int16 audio_bytes;
     let audio_data := map normalize samples in
     features <- _extract_features audio_data sample_rate;
     '(detected, conf) <- _detect_eating self features;
     conf <- as_float conf;
     Ret {| eating_detected := detected;
            confidence := conf;
            audio_features := Some features |})
    (fun _ => Ret {| eating_detected := false;
                     confidence := 0;
                     audio_features := None |}).

End WithLibrosa.

(** *** The detector's table, as the specification words it *)

(** A feature read off a mapping of names to floats; an absent name
    counts as zero. *)
Definition feature (fs : gmap string float) (key : string) : float :=
  default 0%float (fs !! key).

Definition rhythmic_zcr (fs : gmap string float) : bool :=
  PrimFloat.ltb 0.05 (feature fs "zcr_mean")
  && PrimFloat.ltb (feature fs "zcr_mean") 0.25.

Definition sufficient_energy (fs : gmap string float) : bool :=
  PrimFloat.ltb 0.02 (feature fs "rms_mean").

Definition bright_spectrum (fs : gmap string float) : bool :=
  PrimFloat.ltb 1000 (feature fs "spectral_centroid").

Definition high_rolloff (fs : gmap string float) : bool :=
  PrimFloat.ltb 2000 (feature fs "spectral_rolloff").

(** The weights of the tests that passed, in table order. *)
Definition weights_of (zcr energy centroid rolloff : bool) : list float :=
  ((if zcr then [0.3%float] else [])
   ++ (if energy then [0.3%float] else [])
   ++ (if centroid then [0.2%float] else [])
   ++ (if rolloff then [0.2%float] else []))%list.

Definition satisfied_weights (fs : gmap string float) : list float :=
  weights_of (rhythmic_zcr fs) (sufficient_energy fs) (bright_spectrum fs)
    (high_rolloff fs).

(** A sum of floats, from the left. *)
Definition float_sum (l : list float) : float :=
  fold_left PrimFloat.add l 0%float.

(** Sum of the weights of the satisfied rows. *)
Definition satisfied_weight_sum (fs : gmap string float) : float :=
  float_sum (satisfied_weights fs).

(** All the orders of a list. *)
Fixpoint insert_all {A} (x : A) (l : list A) : list (list A) :=
  match l with
  | [] => [[x]]
  | y :: r => (x :: y :: r) :: map (cons y) (insert_all x r)
  end.

Fixpoint orders {A} (l : list A) : list (list A) :=
  match l with
  | [] => [[]]
  | x :: r => flat_map (insert_all x) (orders r)
  end.

(** The midpoint of the four pass ranges. *)
Definition midpoint_features : gmap string float :=
  <["zcr_mean" := 0.15%float]>
  (<["rms_mean" := 0.05%float]>
  (<["spectral_centroid" := 1500%float]>
  (<["spectral_rolloff" := 2500%float]> ∅))).

(** The weights of the table and the sums of their sub-lists. *)
Definition weights : list float := [0.3; 0.3; 0.2; 0.2]%float.

Fixpoint sublists {A} (l : list A) : list (list A) :=
  match l with
  | [] => [[]]
  | x :: r => map (cons x) (sublists r) ++ sublists r
  end.

Definition subset_sums : list float := map float_sum (sublists weights).

(** The detector after its four tests: what it answers from their
    outcomes. *)
Definition tally (self : t) (r1 r2 r3 r4 : res bool) : res (bool * pyval) :=
  try_except
    (c1 <- r1;
     c2 <- r2;
     c3 <- r3;
     c4 <- r4;
     confidence <-
       py_sum (append_if c4 0.2 (append_if c3 0.2 (append_if c2 0.3
                 (append_if c1 0.3 []))));
     eating_detected <-
       py_ge confidence (PyFloat (eating_confidence_threshold self));
     Ret (eating_detected, confidence))
    (fun _ => Ret (false, PyFloat 0)).

(** What makes a buffer unusable: its size is odd, or one of the feature
    functions raises on the decoded signal (the extractor then answers the
    empty mapping). *)
Definition extraction_fails `{Librosa} (audio_bytes : list Byte.byte)
    (sample_rate : Z) : Prop :=
  match frombuffer_int16 audio_bytes with
  | Raise _ => True
  | Ret samples =>
      _extract_features (map normalize samples) sample_rate = Ret ∅
  end.

(** A stand-in for the signal-processing library, for evaluating the
    analysis: every feature function refuses a signal shorter than one
    sample and otherwise answers one frame. *)
Definition one_frame (audio : list float) : res (list float) :=
  match audio with
  | [] => Raise ValueError
  | x :: _ => Ret [PrimFloat.abs x]
  end.

Definition stub_librosa : Librosa := {|
  zero_crossing_rate := one_frame;
  rms := one_frame;
  spectral_centroid := fun audio _ => one_frame audio;
  spectral_rolloff := fun audio _ => one_frame audio;
  np_mean := fun frames => hd 0%float frames;
  np_std := fun _ => 0%float
|}.

End AudioProcessor.

(* ===================================================================== *)
(** ** Python strings *)
(* ===================================================================== *)

Module PyStr.

(** Text is the string of its UTF-8 bytes.  [str.lower()] is modelled on
    the letters A-Z; the bytes of the other characters stay.  (Lowering a
    character outside ASCII changes bytes above 127 only, but for the Kelvin
    sign and the dotted capital I, whose lowerings complete none of the
    analyzer's keywords.) *)
Definition lower_ascii (c : ascii) : ascii :=
  let n := N_of_ascii c in
  if ((65 <=? n) && (n <=? 90))%N then ascii_of_N (n + 32) else c.

Fixpoint lower (s : string) : string :=
  match s with
  | EmptyString => EmptyString
  | String c r => String (lower_ascii c) (lower r)
  end.

(** [needle in hay]: [needle] starts at some position of [hay]. *)
Fixpoint contains (needle hay : string) : bool :=
  String.prefix needle hay
  || match hay with
     | EmptyString => false
     | String _ r => contains needle r
     end.

(** The double quote, which a literal cannot hold. *)
Definition dquote : string := String (ascii_of_N 34) EmptyString.

End PyStr.

Import PyStr.

(* ===================================================================== *)
(** ** app/models.py and app/services/sentiment_analyzer.py *)
(* ===================================================================== *)

Module SentimentAnalyzer.

(** [app.models.SentimentType]. *)
Inductive SentimentType := CALM | STRESSED | NEUTRAL | RUSHED | MINDFUL.

(** [app.models.ReflectionAnalysis]. *)
Record ReflectionAnalysis := {
  text : string;
  sentiment : SentimentType;
  is_reflective : bool;
  keywords : list string;
  tone_indicators : gmap string float
}.

(** What [json.loads] builds.  An object is the list of its members, each
    name once. *)
Inductive json :=
| JNull
| JBool (b : bool)
| JInt (z : Z)
| JFloat (f : float)
| JStr (s : string)
| JList (l : list json)
| JDict (members : list (string * json)).

(** One call of [client.chat.completions.create]. *)
Record chat_request := {
  model : string;
  system_content : string;
  user_content : string;
  temperature : float;
  max_tokens : Z
}.

(** What the analyzer calls outside the repository: the chat-completion
    endpoint (it answers the [message.content] of each choice, or raises on
    a transport error or a timeout), [json.loads] and the parsing of a
    number written as a string. *)
Class Services := {
  chat_completions_create : chat_request -> res (list (option string));
  json_loads : string -> res json;
  float_of_str : string -> res float
}.

(** [self.reflection_keywords]. *)
Definition reflection_keywords : list string := [
  "feel"; "felt"; "feeling";
  "was"; "were"; "seemed";
  "too fast"; "too slow"; "rushed";
  "mindful"; "aware"; "noticed";
  "enjoyed"; "satisfying"; "satisfied";
  "stressed"; "anxious"; "calm"
].

(** [_is_reflective(self, text)]. *)
Definition _is_reflective (text : string) : bool :=
  let text_lower := lower text in
  existsb (fun keyword => contains keyword text_lower) reflection_keywords.

(** [_extract_keywords(self, text)]. *)
Definition _extract_keywords (text : string) : list string :=
  let text_lower := lower text in
  List.filter (fun kw => contains kw text_lower) reflection_keywords.

(** [sentiment_map] of [_parse_sentiment]. *)
Definition sentiment_map : gmap string SentimentType :=
  list_to_map [("calm", CALM); ("stressed", STRESSED); ("neutral", NEUTRAL);
               ("rushed", RUSHED); ("mindful", MINDFUL)].

(** [_parse_sentiment(self, sentiment_str)]: only a [str] has [lower]. *)
Definition _parse_sentiment (sentiment_str : json) : res SentimentType :=
  match sentiment_str with
  | JStr s => Ret (default NEUTRAL (sentiment_map !! lower s))
  | _ => Raise AttributeError
  end.

(** [result.get(key, dflt)]: only a [dict] has [get]. *)
Fixpoint assoc (key : string) (members : list (string * json)) : option json :=
  match members with
  | [] => None
  | (k, v) :: r => if String.eqb k key then Some v else assoc key r
  end.

Definition dict_get (result : json) (key : string) (dflt : json) : res json :=
  match result with
  | JDict members => Ret (default dflt (assoc key members))
  | _ => Raise AttributeError
  end.

(** [xs[0]]. *)
Definition index0 {A} (xs : list A) : res A :=
  match xs with
  | x :: _ => Ret x
  | [] => Raise IndexError
  end.

(** The f-string of [_analyze_with_llm]. *)
Definition prompt (text : string) : string :=
  "Analyze this meal reflection and determine:
1. The overall sentiment (calm, stressed, neutral, rushed, or mindful)
2. Tone indicators (stressed_score, mindful_score, rushed_score from 0-1)

Reflection: " ++ dquote ++ text ++ dquote ++ "

Respond in JSON format:
{
    " ++ dquote ++ "sentiment" ++ dquote ++ ": " ++ dquote
  ++ "calm|stressed|neutral|rushed|mindful" ++ dquote ++ ",
    " ++ dquote ++ "tone_indicators" ++ dquote ++ ": {
        " ++ dquote ++ "stressed_score" ++ dquote ++ ": 0.0,
        " ++ dquote ++ "mindful_score" ++ dquote ++ ": 0.0,
        " ++ dquote ++ "rushed_score" ++ dquote ++ ": 0.0
    }
}".

Definition request_for (text : string) : chat_request := {|
  model := "gpt-3.5-turbo";
  system_content := "You are a helpful assistant that analyzes meal reflections for emotional tone and mindfulness.";
  user_content := prompt text;
  temperature := 0.3;
  max_tokens := 150
|}.

Section WithServices.

Context `{Services}.

(** [json.loads(result_text)]: [TypeError] on [None]. *)
Definition json_loads_content (result_text : option string) : res json :=
  match result_text with
  | Some s => json_loads s
  | None => Raise TypeError
  end.

(** The validation of one value of a [dict[str, float]] field. *)
Definition validate_float (v : json) : res float :=
  match v with
  | JFloat f => Ret f
  | JInt z => try_except (int_to_float z) (fun _ => Raise ValidationError)
  | JBool b => Ret (if b then 1%float else 0%float)
  | JStr s => try_except (float_of_str s) (fun _ => Raise ValidationError)
  | _ => Raise ValidationError
  end.

Fixpoint validate_members (members : list (string * json))
  : res (gmap string float) :=
  match members with
  | [] => Ret ∅
  | (k, v) :: r =>
      f <- validate_float v;
      m <- validate_members r;
      Ret (<[k := f]> m)
  end.

(** The validation of the [tone_indicators] field. *)
Definition validate_tone_indicators (v : json) : res (gmap string float) :=
  match v with
  | JDict members => validate_members members
  | _ => Raise ValidationError
  end.

(** [ReflectionAnalysis(text=..., sentiment=..., is_reflective=...,
    keywords=..., tone_indicators=...)]. *)
Definition new_ReflectionAnalysis (text : string) (sentiment : SentimentType)
    (is_reflective : bool) (keywords : list string) (tone_indicators : json)
  : res ReflectionAnalysis :=
  tone <- validate_tone_indicators tone_indicators;
  Ret {| text := text; sentiment := sentiment;
         is_reflective := is_reflective; keywords := keywords;
         tone_indicators := tone |}.

(** [_analyze_with_llm(self, text)]. *)
Definition _analyze_with_llm (text : string)
  : io chat_request (SentimentType * json) :=
  io_try_except
    (let request := request_for text in
     choices <~ io_request request (chat_completions_create request);
     result_text <~ io_lift (index0 choices);
     result <~ io_lift (json_loads_content result_text);
     sentiment_str <~ io_lift (dict_get result "sentiment" (JStr "neutral"));
     sentiment <~ io_lift (_parse_sentiment sentiment_str);
     tone_indicators <~ io_lift (dict_get result "tone_indicators" (JDict []));
     io_ret (sentiment, tone_indicators))
    (fun _ => io_ret (NEUTRAL, JDict [])).

(** [analyze_reflection(self, text)]. *)
Definition analyze_reflection (text : string)
  : io chat_request ReflectionAnalysis :=
  io_try_except
    (let is_reflective := _is_reflective text in
     if negb is_reflective then
       io_lift (new_ReflectionAnalysis text NEUTRAL false [] (JDict []))
     else
       '(sentiment, tone_indicators) <~ _analyze_with_llm text;
       let keywords := _extract_keywords text in
       io_lift (new_ReflectionAnalysis text sentiment is_reflective keywords
                  tone_indicators))
    (fun _ =>
       io_lift (new_ReflectionAnalysis text NEUTRAL false [] (JDict []))).

(** What [_analyze_with_llm] makes of the answer to its request, before
    its [except] clause. *)
Definition read_reply (answer : res (list (option string)))
  : res (SentimentType * json) :=
  choices <- answer;
  result_text <- index0 choices;
  result <- json_loads_content result_text;
  sentiment_str <- dict_get result "sentiment" (JStr "neutral");
  sentiment <- _parse_sentiment sentiment_str;
  tone_indicators <- dict_get result "tone_indicators" (JDict []);
  Ret (sentiment, tone_indicators).

End WithServices.

(** The all-default analysis of a text. *)
Definition default_analysis (text : string) : ReflectionAnalysis := {|
  text := text; sentiment := NEUTRAL; is_reflective := false;
  keywords := []; tone_indicators := ∅
|}.

(** The language-understanding call fails: the request raises (transport
    error, timeout), or its answer cannot be read: no choice, no content, a
    content that does not parse as JSON, or JSON that is no object or whose
    sentiment is no string. *)
Definition llm_call_fails `{Services} (text : string) : Prop :=
  raises (read_reply (chat_completions_create (request_for text))).

(** [kw] occurs in [text] up to the case of letters: some stretch of [text]
    reads [kw] once lowered. *)
Definition occurs_ignoring_case (kw text : string) : Prop :=
  exists before stretch after,
    text = before ++ stretch ++ after /\ lower stretch = kw.

(** Stand-ins for the services, for evaluating the analyzer: an endpoint
    that times out, one that answers text that is no JSON, and one whose
    answer parses to a given value. *)
Definition unreachable_services : Services := {|
  chat_completions_create := fun _ => Raise (ExternalError "timeout");
  json_loads := fun _ => Raise JSONDecodeError;
  float_of_str := fun _ => Raise ValueError
|}.

Definition garbled_services : Services := {|
  chat_completions_create := fun _ => Ret [Some "Sorry, I cannot help."];
  json_loads := fun _ => Raise JSONDecodeError;
  float_of_str := fun _ => Raise ValueError
|}.

Definition canned_services (reply : json) : Services := {|
  chat_completions_create := fun _ => Ret [Some "{...}"];
  json_loads := fun _ => Ret reply;
  float_of_str := fun _ => Raise ValueError
|}.

End SentimentAnalyzer.

(* ===================================================================== *)
(** ** config.py and app/services/feedback_manager.py *)
(* ===================================================================== *)

Module FeedbackManager.

(** An offset-naive [datetime], the kind [datetime.utcnow()] returns, as its
    count of microseconds since the epoch; a [timedelta] is a count of
    microseconds. *)
Definition datetime : Type := Z.
Definition timedelta : Type := Z.

(** [timedelta.total_seconds()], as the exact quotient.  The interpreter
    answers the double nearest to it; rounding is monotone and leaves
    integers below 2^53 alone, so comparing the double with an integer gives
    what comparing the quotient gives. *)
Definition total_seconds (d : timedelta) : Q := d # 1000000.

(** [settings.feedback_cooldown_seconds], when the environment does not
    set it. *)
Definition default_feedback_cooldown_seconds : Z := 300.

(** The instance attributes [__init__] sets. *)
Record t := {
  cooldown_seconds : Z;
  messages : gmap string string
}.

(** [FeedbackManager()], under the given setting. *)
Definition init (feedback_cooldown_seconds : Z) : t := {|
  cooldown_seconds := feedback_cooldown_seconds;
  messages :=
    <["slow_down" := "Take a deep breath 🌿 Eating slowly helps digestion and mindfulness."]>
    (<["mindful" := "Great mindful eating! 🧘 Keep up the awareness."]>
    (<["stressed" := "Notice any tension? 💆 Try taking a pause between bites."]>
    (<["rushed" := "Slow down ⏸️ Enjoy each bite and savor your meal."]> ∅)))
|}.

(** [self.messages["slow_down"]]. *)
Definition getitem (d : gmap string string) (key : string) : res string :=
  match d !! key with
  | Some v => Ret v
  | None => Raise (ExternalError "KeyError")
  end.

(** What the manager calls outside itself: the event history, the clock and
    the notification client. *)
Class Backend := {
  get_last_feedback_time : string -> res (option datetime);
  utcnow : datetime;
  send_notification : string -> string -> res bool
}.

(** A notification handed to the client: user and message. *)
Definition notification : Type := string * string.

Section WithBackend.

Context `{Backend}.

(** [_can_send_feedback(self, uid)]. *)
Definition _can_send_feedback (self : t) (uid : string) : res bool :=
  try_except
    (last_feedback_time <- get_last_feedback_time uid;
     match last_feedback_time with
     | None => Ret true
     | Some last_feedback_time =>
         let time_since_last : timedelta := utcnow - last_feedback_time in
         Ret (Qle_bool (inject_Z (cooldown_seconds self))
                (total_seconds time_since_last))
     end)
    (fun _ => Ret true).

(** [send_feedback(self, uid, feedback_type, force)]. *)
Definition send_feedback (self : t) (uid feedback_type : string)
    (force : bool) : io notification bool :=
  io_try_except
    (limited <~ (if force then io_ret false
                 else c <~ io_lift (_can_send_feedback self uid);
                      io_ret (negb c));
     if limited then io_ret false
     else
       dflt <~ io_lift (getitem (messages self) "slow_down");
       let message := default dflt (messages self !! feedback_type) in
       success <~ io_request (uid, message) (send_notification uid message);
       io_ret success)
    (fun _ => io_ret false).

End WithBackend.



(** Stand-ins for the backend, for evaluating the manager: the clock reads
    [now]; the history answers [last] for every user, or is down. *)
Definition backend_with (now : datetime) (last : option datetime) : Backend := {|
  get_last_feedback_time := fun _ => Ret last;
  utcnow := now;
  send_notification := fun _ _ => Ret true
|}.

Definition backend_down (now : datetime) : Backend := {|
  get_last_feedback_time := fun _ => Raise (ExternalError "history lookup");
  utcnow := now;
  send_notification := fun _ _ => Ret true
|}.

(** [n] seconds, in microseconds. *)
Definition seconds (n : Z) : timedelta := n * 1000000.

End FeedbackManager.

(* ===================================================================== *)
(** ** app/services/transcript_processor.py *)
(* ===================================================================== *)

Module TranscriptProcessor.

(** [app.models.TranscriptSegment]. *)
Record TranscriptSegment := {
  text : string;
  timestamp : FeedbackManager.datetime;
  speaker : option string
}.

(** [app.models.TranscriptWebhookPayload]. *)
Record TranscriptWebhookPayload := {
  uid : string;
  segments : list TranscriptSegment;
  payload_timestamp : FeedbackManager.datetime
}.

(** [self.reflection_triggers]. *)
Definition reflection_triggers : list string := [
  "i feel";
  "i felt";
  "that meal";
  "that was";
  "too fast";
  "too slow";
  "i ate";
  "eating";
  "mindful";
  "rushed"
].

(** [sep.join(parts)]. *)
Fixpoint join (sep : string) (parts : list string) : string :=
  match parts with
  | [] => EmptyString
  | [p] => p
  | p :: rest => p ++ sep ++ join sep rest
  end.

(** [_is_reflection(self, text)]. *)
Definition _is_reflection (text : string) : bool :=
  let text_lower := lower text in
  existsb (fun trigger => contains trigger text_lower) reflection_triggers.

(** The text the processor analyzes: the segments' texts, a space between
    them. *)
Definition full_text (payload : TranscriptWebhookPayload) : string :=
  join " " (map text (segments payload)).

Section WithServices.

Context `{SentimentAnalyzer.Services}.

(** [process_transcript(self, payload)]; [None] is Python's [None]. *)
Definition process_transcript (payload : TranscriptWebhookPayload)
  : io SentimentAnalyzer.chat_request
       (option SentimentAnalyzer.ReflectionAnalysis) :=
  io_try_except
    (let full_text := join " " (map text (segments payload)) in
     if negb (_is_reflection full_text) then io_ret None
     else
       analysis <~ SentimentAnalyzer.analyze_reflection full_text;
       if SentimentAnalyzer.is_reflective analysis
       then io_ret (Some analysis)
       else io_ret None)
    (fun _ => io_ret None).

End WithServices.

End TranscriptProcessor.

(* ===================================================================== *)
(** ** app/services/omi_client.py *)
(* ===================================================================== *)

Module OmiClient.

(** The instance attributes [__init__] reads off the settings. *)
Record t := {
  base_url : string;
  app_id : string;
  app_secret : string
}.

(** One [client.post(url, params=..., json=..., headers=..., timeout=...)]. *)
Record http_request := {
  url : string;
  params : option (list (string * string));
  json_payload : option (list (string * SentimentAnalyzer.json));
  headers : list (string * string);
  timeout : float
}.

(** What the client reads of a response. *)
Record http_response := {
  status_code : Z;
  response_text : string
}.

(** The HTTP transport: it answers a response or raises. *)
Class Http := {
  post : http_request -> res http_response
}.

(** [_get_headers(self)]. *)
Definition _get_headers (self : t) : list (string * string) :=
  [("Authorization", "Bearer " ++ app_secret self);
   ("Content-Type", "application/json")].

(** The truth value of a decoded JSON value, as [if x:] takes it. *)
Definition truthy (x : SentimentAnalyzer.json) : bool :=
  match x with
  | SentimentAnalyzer.JNull => false
  | SentimentAnalyzer.JBool b => b
  | SentimentAnalyzer.JInt z => negb (z =? 0)
  | SentimentAnalyzer.JFloat f => negb (PrimFloat.eqb f 0)
  | SentimentAnalyzer.JStr s => negb (String.eqb s EmptyString)
  | SentimentAnalyzer.JList l => match l with [] => false | _ => true end
  | SentimentAnalyzer.JDict members =>
      match members with [] => false | _ => true end
  end.

Section WithHttp.

Context `{Http}.

(** [send_notification(self, uid, message)]. *)
Definition send_notification (self : t) (uid message : string)
  : io http_request bool :=
  io_try_except
    (let url :=
       base_url self ++ "/v2/integrations/" ++ app_id self ++ "/notification" in
     let params := [("uid", uid); ("message", message)] in
     let request := {| url := url; params := Some params;
                       json_payload := None;
                       headers := _get_headers self; timeout := 10 |} in
     response <~ io_request request (post request);
     if status_code response =? 200 then io_ret true else io_ret false)
    (fun _ => io_ret false).

(** [create_memory(self, uid, title, content, structured_data)]. *)
Definition create_memory (self : t) (uid title content : string)
    (structured_data : option SentimentAnalyzer.json)
  : io http_request bool :=
  io_try_except
    (let url := base_url self ++ "/v1/memories" in
     let payload := [("uid", SentimentAnalyzer.JStr uid);
                     ("title", SentimentAnalyzer.JStr title);
                     ("content", SentimentAnalyzer.JStr content)] in
     let payload :=
       match structured_data with
       | Some d =>
           if truthy d then (payload ++ [("structured", d)])%list
           else payload
       | None => payload
       end in
     let request := {| url := url; params := None;
                       json_payload := Some payload;
                       headers := _get_headers self; timeout := 10 |} in
     response <~ io_request request (post request);
     if (status_code response =? 200) || (status_code response =? 201)
     then io_ret true else io_ret false)
    (fun _ => io_ret false).

End WithHttp.

(** The notification client of the feedback manager, when it is this
    client: what [send_notification] answers over a transport. *)
Definition as_backend `{Http} (self : t)
    (history : string -> res (option FeedbackManager.datetime))
    (now : FeedbackManager.datetime) : FeedbackManager.Backend := {|
  FeedbackManager.get_last_feedback_time := history;
  FeedbackManager.utcnow := now;
  FeedbackManager.send_notification :=
    fun uid message => fst (send_notification self uid message [])
|}.

(** Stand-ins for the transport: one that answers a given status, one that
    is down. *)
Definition answering (status : Z) : Http := {|
  post := fun _ => Ret {| status_code := status; response_text := "" |}
|}.

Definition unreachable : Http := {|
  post := fun _ => Raise (ExternalError "connect timeout")
|}.

End OmiClient.

(* ===================================================================== *)
(** ** app/models.py and app/database.py *)
(* ===================================================================== *)

Module Database.

(** [app.models.EventType]. *)
Inductive EventType := MEAL_START | MEAL_END | REFLECTION.

(** The [value] of a member of [EventType], of [SentimentType]. *)
Definition event_value (e : EventType) : string :=
  match e with
  | MEAL_START => "meal_start"
  | MEAL_END => "meal_end"
  | REFLECTION => "reflection"
  end.

Definition sentiment_value (s : SentimentAnalyzer.SentimentType) : string :=
  match s with
  | SentimentAnalyzer.CALM => "calm"
  | SentimentAnalyzer.STRESSED => "stressed"
  | SentimentAnalyzer.NEUTRAL => "neutral"
  | SentimentAnalyzer.RUSHED => "rushed"
  | SentimentAnalyzer.MINDFUL => "mindful"
  end.

(** [app.models.MealEvent]. *)
Record MealEvent := {
  id : option string;
  uid : string;
  timestamp : FeedbackManager.datetime;
  event_type : EventType;
  duration : option Z;
  reflection_text : option string;
  sentiment : option SentimentAnalyzer.SentimentType;
  cue_sent : bool
}.

(** The document store.  [stream_user_events uid start_date end_date] is
    the query of [get_user_events], its documents read as [MealEvent]s (it
    raises when the query or the reading of a document fails);
    [stream_last_cue uid] is the query of [get_last_feedback_time], each
    document given by its [timestamp] field when it has one;
    [update_cue_sent event_id] is the update of [mark_feedback_sent]. *)
Class Firestore := {
  stream_user_events :
    string -> option FeedbackManager.datetime ->
    option FeedbackManager.datetime -> res (list MealEvent);
  stream_last_cue : string -> res (list (option FeedbackManager.datetime));
  update_cue_sent : string -> res unit
}.

(** The dictionary [get_weekly_stats] returns on success. *)
Record weekly_stats := {
  total_meals : nat;
  reflections_count : nat;
  avg_meal_duration : Q;
  sentiment_breakdown : gmap string Z
}.

(** [timedelta(days=7)]. *)
Definition seven_days : FeedbackManager.timedelta :=
  FeedbackManager.seconds (7 * 86400).

(** The truth value of an optional string. *)
Definition truthy_str (s : option string) : bool :=
  match s with Some s => negb (String.eqb s EmptyString) | None => false end.

(** [e.event_type in ["meal_start", "meal_end"]]: a member of the string
    enumeration equals its value. *)
Definition is_meal (e : MealEvent) : bool :=
  existsb (String.eqb (event_value (event_type e))) ["meal_start"; "meal_end"].

(** [[e.duration for e in events if e.duration]]. *)
Fixpoint durations_of (events : list MealEvent) : list Z :=
  match events with
  | [] => []
  | e :: r =>
      match duration e with
      | Some d => if negb (d =? 0) then d :: durations_of r
                  else durations_of r
      | None => durations_of r
      end
  end.

(** [sum(durations)] on ints. *)
Definition sum_ints (l : list Z) : Z := fold_left Z.add l 0.

(** One turn of the loop that counts the sentiments. *)
Definition count_sentiment (counts : gmap string Z) (event : MealEvent)
  : gmap string Z :=
  match sentiment event with
  | Some s =>
      let sentiment := sentiment_value s in
      <[sentiment := default 0 (counts !! sentiment) + 1]> counts
  | None => counts
  end.

Section WithFirestore.

Context `{Firestore}.

(** [get_user_events(self, uid, start_date, end_date)]. *)
Definition get_user_events (uid : string)
    (start_date end_date : option FeedbackManager.datetime)
  : res (list MealEvent) :=
  try_except
    (events <- stream_user_events uid start_date end_date; Ret events)
    (fun _ => Ret []).

(** [get_last_feedback_time(self, uid)]. *)
Definition get_last_feedback_time (uid : string)
  : res (option FeedbackManager.datetime) :=
  try_except
    (docs <- stream_last_cue uid;
     match docs with
     | doc :: _ => Ret doc
     | [] => Ret None
     end)
    (fun _ => Ret None).

(** [mark_feedback_sent(self, event_id)]. *)
Definition mark_feedback_sent (event_id : string) : res bool :=
  try_except
    (_ <- update_cue_sent event_id; Ret true)
    (fun _ => Ret false).

(** [get_weekly_stats(self, uid, week_start)]; [None] is the empty
    dictionary of the [except] clause.  The average is the exact quotient
    (the interpreter answers the double nearest to it). *)
Definition get_weekly_stats (uid : string)
    (week_start : FeedbackManager.datetime) : res (option weekly_stats) :=
  try_except
    (let week_end := week_start + seven_days in
     events <- get_user_events uid (Some week_start) (Some week_end);
     let meals := List.filter is_meal events in
     let reflections :=
       List.filter (fun e => truthy_str (reflection_text e)) events in
     let durations := durations_of events in
     let avg_duration :=
       match durations with
       | [] => 0%Q
       | _ => (inject_Z (sum_ints durations)
               / inject_Z (Z.of_nat (length durations)))%Q
       end in
     let sentiment_counts := fold_left count_sentiment events ∅ in
     Ret (Some {| total_meals := length meals;
                  reflections_count := length reflections;
                  avg_meal_duration := avg_duration;
                  sentiment_breakdown := sentiment_counts |}))
    (fun _ => Ret None).

End WithFirestore.

(** The history of the feedback manager, when it is this database. *)
Definition as_backend `{Firestore} (now : FeedbackManager.datetime)
    (notify : string -> string -> res bool) : FeedbackManager.Backend := {|
  FeedbackManager.get_last_feedback_time := get_last_feedback_time;
  FeedbackManager.utcnow := now;
  FeedbackManager.send_notification := notify
|}.

(** Stand-ins for the store: one that holds given events and cue
    timestamps, one that is down. *)
Definition store_with (events : list MealEvent)
    (cues : list (option FeedbackManager.datetime)) : Firestore := {|
  stream_user_events := fun _ _ _ => Ret events;
  stream_last_cue := fun _ => Ret cues;
  update_cue_sent := fun _ => Ret tt
|}.

Definition store_down : Firestore := {|
  stream_user_events := fun _ _ _ => Raise (ExternalError "unavailable");
  stream_last_cue := fun _ => Raise (ExternalError "unavailable");
  update_cue_sent := fun _ => Raise (ExternalError "unavailable")
|}.

End Database.

(** A test that holds of [fuel] consecutive integers from [z] on. *)
Fixpoint all_from (fuel : nat) (z : Z) (test : Z -> bool) : bool :=
  match fuel with
  | O => true
  | S k => test z && all_from k (z + 1) test
  end.

(** The number of 16-bit samples, and the test that a sample, normalized,
    lies in [-1, 1). *)
Definition int16_count : nat := Z.to_nat 65536.

Definition in_unit_range (sample : Z) : bool :=
  let x := AudioProcessor.normalize sample in
  PrimFloat.leb (-1) x && PrimFloat.ltb x 1.

(** The features the extractor builds from the four rows of frames, as a
    mapping to floats. *)
Definition features_of_frames `{AudioProcessor.Librosa}
    (zcr rms centroids rolloff : list float) : gmap string float :=
  <["zcr_mean" := AudioProcessor.np_mean zcr]>
  (<["zcr_std" := AudioProcessor.np_std zcr]>
  (<["rms_mean" := AudioProcessor.np_mean rms]>
  (<["spectral_centroid" := AudioProcessor.np_mean centroids]>
  (<["spectral_rolloff" := AudioProcessor.np_mean rolloff]> ∅)))).

(** The request [OmiClient.send_notification] posts for a user and a
    message. *)
Definition notification_request (self : OmiClient.t) (uid message : string)
  : OmiClient.http_request := {|
  OmiClient.url :=
    OmiClient.base_url self ++ "/v2/integrations/" ++ OmiClient.app_id self
    ++ "/notification";
  OmiClient.params := Some [("uid", uid); ("message", message)];
  OmiClient.json_payload := None;
  OmiClient.headers :=
    [("Authorization", "Bearer " ++ OmiClient.app_secret self);
     ("Content-Type", "application/json")];
  OmiClient.timeout := 10
|}.

(** Whether an event carries the sentiment [s]; the number of events that
    do. *)
Definition has_sentiment (s : SentimentAnalyzer.SentimentType)
    (e : Database.MealEvent) : bool :=
  match Database.sentiment e with
  | Some s' =>
      String.eqb (Database.sentiment_value s') (Database.sentiment_value s)
  | None => false
  end.

Definition events_with_sentiment (s : SentimentAnalyzer.SentimentType)
    (events : list Database.MealEvent) : Z :=
  Z.of_nat (length (List.filter (has_sentiment s) events)).

(** The events of a user's week, as the store streams them. *)
Definition week_events `{Database.Firestore} (uid : string)
    (week_start : FeedbackManager.datetime) : res (list Database.MealEvent) :=
  Database.stream_user_events uid (Some week_start)
    (Some (week_start + Database.seven_days)).

(** An event of the given type that carries only a duration, or only a
    sentiment. *)
Definition timed_event (type : Database.EventType) (seconds : Z)
  : Database.MealEvent := {|
  Database.id := None; Database.uid := "uid-1"; Database.timestamp := 0;
  Database.event_type := type; Database.duration := Some seconds;
  Database.reflection_text := None; Database.sentiment := None;
  Database.cue_sent := false
|}.

Definition felt_event (s : SentimentAnalyzer.SentimentType)
  : Database.MealEvent := {|
  Database.id := None; Database.uid := "uid-1"; Database.timestamp := 0;
  Database.event_type := Database.REFLECTION; Database.duration := None;
  Database.reflection_text := Some "I felt it";
  Database.sentiment := Some s;
  Database.cue_sent := false
|}.

(** Membership in a list given in full. *)
Ltac in_list := vm_compute; repeat (first [left; reflexivity | right]).

(* ===================================================================== *)
(** * Properties *)
(* ===================================================================== *)

(** ** Python numbers: sanity checks *)

Example py_gt_float_int : py_gt (PyFloat 1500) (PyInt 1000) = Ret true.
Proof. reflexivity. Qed.

Example py_lt_float_int : py_lt (PyFloat 0.05) (PyInt 0) = Ret false.
Proof. reflexivity. Qed.

Example py_sum_start : py_sum [] = Ret (PyInt 0).
Proof. reflexivity. Qed.

Example py_sum_all :
  py_sum [PyFloat 0.3; PyFloat 0.3; PyFloat 0.2; PyFloat 0.2] = Ret (PyFloat 1).
Proof. reflexivity. Qed.

Example Z2float_neg : Z2float (-3) = (-3)%float.
Proof. reflexivity. Qed.

(** ** Floats against integers *)

(** The mantissa of a double has at most 53 bits, and exactly 53 unless the
    exponent is the least one. *)
Lemma digits2_pos_bounds (m : positive) :
  2 ^ (Z.pos (digits2_pos m) - 1) <= Z.pos m < 2 ^ Z.pos (digits2_pos m).
Proof.
  induction m as [m IH | m IH |]; cbn [digits2_pos].
  - rewrite Pos2Z.inj_succ.
    replace (Z.succ (Z.pos (digits2_pos m)) - 1) with (Z.succ (Z.pos (digits2_pos m) - 1)) by lia.
    rewrite !Z.pow_succ_r by lia. lia.
  - rewrite Pos2Z.inj_succ.
    replace (Z.succ (Z.pos (digits2_pos m)) - 1) with (Z.succ (Z.pos (digits2_pos m) - 1)) by lia.
    rewrite !Z.pow_succ_r by lia. lia.
  - cbn. lia.
Qed.

Lemma bounded_mantissa (m : positive) (e : Z) :
  bounded prec emax m e = true ->
  Z.pos m < 2 ^ 53 /\ (e = -1074 \/ 2 ^ 52 <= Z.pos m) /\ -1074 <= e.
Proof.
  unfold bounded, canonical_mantissa, fexp, emin, prec, emax.
  intros Hb. apply andb_prop in Hb. destruct Hb as [Hc _].
  apply Z.eqb_eq in Hc.
  pose proof (digits2_pos_bounds m) as [Hlo Hhi].
  set (d := Z.pos (digits2_pos m)) in *.
  assert (Hd : 0 < d) by (unfold d; lia).
  destruct (Z.max_spec (d + e - 53) (3 - 1024 - 53)) as [[Hlt Hmax] | [Hle Hmax]];
    rewrite Hmax in Hc.
  - (* e = emin, d < 53 *)
    assert (d <= 53) by lia.
    split; [| split; [left; lia | lia]].
    apply Z.lt_le_trans with (2 ^ d); [exact Hhi |].
    apply Z.pow_le_mono_r; lia.
  - assert (d = 53) by lia. subst d. rewrite H in *.
    split; [exact Hhi | split; [right; exact Hlo | lia]].
Qed.

Lemma pow2_split (a b : Z) : 0 <= a -> 0 <= b -> 2 ^ (a + b) = 2 ^ a * 2 ^ b.
Proof. intros. apply Z.pow_add_r; assumption. Qed.

Lemma int_lt_float_is_ltb (z : Z) (c f : float) (m : positive) (e : Z) :
  Prim2SF c = S754_finite false m e ->
  e < 0 ->
  z * 2 ^ (- e) = Z.pos m ->
  is_cmp Lt (Z_compare_float z f) = PrimFloat.ltb c f.
Proof.
  intros Hc He Hz.
  pose proof (Prim2SF_valid c) as Vc. rewrite Hc in Vc. cbn in Vc.
  apply bounded_mantissa in Vc. destruct Vc as (Hm53 & Hm52 & Hemin).
  assert (Hpe : 2 <= 2 ^ (- e)).
  { change 2 with (2 ^ 1) at 1. apply Z.pow_le_mono_r; lia. }
  assert (Hzpos : 0 < z) by nia.
  assert (Hz52 : z < 2 ^ 52).
  { change (2 ^ 53) with (2 * 2 ^ 52) in Hm53. nia. }
  rewrite ltb_spec, Hc. unfold Z_compare_float.
  pose proof (Prim2SF_valid f) as Vf.
  destruct (Prim2SF f) as [s | s | | s m2 e2]; cbn [SF_compare_Z SFltb SFcompare].
  - destruct (Z.compare_spec z 0); try lia. reflexivity.
  - destruct s; reflexivity.
  - reflexivity.
  - cbn in Vf. apply bounded_mantissa in Vf.
    destruct Vf as (Hf53 & Hf52 & Hfmin).
    destruct s.
    + (* negative float *)
      destruct (0 <=? e2) eqn:E2; cbn [is_cmp].
      * assert (0 < 2 ^ e2) by (apply Z.pow_pos_nonneg; lia).
        destruct (Z.compare_spec z (Z.neg m2 * 2 ^ e2)); try nia; reflexivity.
      * apply Z.leb_gt in E2.
        assert (0 < 2 ^ (- e2)) by (apply Z.pow_pos_nonneg; lia).
        destruct (Z.compare_spec (z * 2 ^ (- e2)) (Z.neg m2)); try nia; reflexivity.
    + destruct (Z.compare_spec e e2) as [Heq | Hlt | Hgt].
      * subst e2. destruct (0 <=? e) eqn:E2; [apply Z.leb_le in E2; lia |].
        rewrite Hz. cbn [Z.compare]. unfold Pos.compare.
        destruct (Pos.compare_cont Eq m m2); reflexivity.
      * (* e < e2: the constant is below *)
        assert (Hn : 2 ^ 52 <= Z.pos m2) by (destruct Hf52; [lia | assumption]).
        destruct (0 <=? e2) eqn:E2.
        -- apply Z.leb_le in E2.
           assert (0 < 2 ^ e2) by (apply Z.pow_pos_nonneg; lia).
           destruct (Z.compare_spec z (Z.pos m2 * 2 ^ e2)); try nia; reflexivity.
        -- apply Z.leb_gt in E2.
           assert (Hsplit : 2 ^ (- e) = 2 ^ (- e2) * 2 ^ (e2 - e)).
           { rewrite <- pow2_split by lia. f_equal. lia. }
           assert (2 <= 2 ^ (e2 - e)).
           { change 2 with (2 ^ 1) at 1. apply Z.pow_le_mono_r; lia. }
           assert (0 < 2 ^ (- e2)) by (apply Z.pow_pos_nonneg; lia).
           change (2 ^ 53) with (2 * 2 ^ 52) in Hm53.
           destruct (Z.compare_spec (z * 2 ^ (- e2)) (Z.pos m2)); try nia;
             reflexivity.
      * (* e2 < e < 0: the constant is above *)
        assert (Hn : 2 ^ 52 <= Z.pos m) by (destruct Hm52; [lia | assumption]).
        destruct (0 <=? e2) eqn:E2; [apply Z.leb_le in E2; lia |].
        assert (Hsplit : 2 ^ (- e2) = 2 ^ (- e) * 2 ^ (e - e2)).
        { rewrite <- pow2_split by lia. f_equal. lia. }
        assert (2 <= 2 ^ (e - e2)).
        { change 2 with (2 ^ 1) at 1. apply Z.pow_le_mono_r; lia. }
        change (2 ^ 53) with (2 * 2 ^ 52) in Hf53.
        destruct (Z.compare_spec (z * 2 ^ (- e2)) (Z.pos m2)); try nia;
          reflexivity.
Qed.

Example exact_comparison_does_not_round :
  py_lt (PyFloat 9007199254740992) (PyInt 9007199254740993) = Ret true
  /\ Z2float 9007199254740993 = 9007199254740992%float.
Proof. split; reflexivity. Qed.

(** On the sums the detector can form, the compensated [sum] of later
    interpreters answers what the plain one answers. *)
Lemma py_sum_compensated_agrees (l : list float) :
  In l (AudioProcessor.sublists AudioProcessor.weights) ->
  py_sum_compensated l = py_sum (map PyFloat l).
Proof.
  intros Hin. cbv [AudioProcessor.sublists AudioProcessor.weights map app] in Hin.
  cbn [In] in Hin.
  repeat (destruct Hin as [<- | Hin]; [vm_compute; reflexivity |]).
  contradiction.
Qed.

(** ** The eating detector *)

Section DetectEating.

Import AudioProcessor.

Lemma detect_eating_tally (self : t) (features : gmap string pyval) :
  size features <> 0%nat ->
  _detect_eating self features =
  tally self
    (py_between (PyFloat 0.05) (get features "zcr_mean" (PyInt 0))
       (PyFloat 0.25))
    (py_gt (get features "rms_mean" (PyInt 0))
       (PyFloat (energy_threshold self)))
    (py_gt (get features "spectral_centroid" (PyInt 0)) (PyInt 1000))
    (py_gt (get features "spectral_rolloff" (PyInt 0)) (PyInt 2000)).
Proof.
  intros Hsize. unfold _detect_eating, tally.
  destruct (Nat.eqb_spec (size features) 0) as [E | _]; [contradiction |].
  reflexivity.
Qed.

End DetectEating.

Section DetectEatingOnFloats.

Import AudioProcessor.

Variable fs : gmap string float.

Lemma get_fmap (key : string) :
  get (PyFloat <$> fs) key (PyInt 0) =
  match fs !! key with Some f => PyFloat f | None => PyInt 0 end.
Proof.
  unfold get. rewrite lookup_fmap. destruct (fs !! key); reflexivity.
Qed.

Lemma zcr_test :
  py_between (PyFloat 0.05) (get (PyFloat <$> fs) "zcr_mean" (PyInt 0))
    (PyFloat 0.25) = Ret (rhythmic_zcr fs).
Proof.
  rewrite get_fmap. unfold rhythmic_zcr, feature.
  destruct (fs !! "zcr_mean") as [f |]; [| reflexivity].
  unfold py_between. cbv [default from_option id]. cbn [py_lt bind].
  destruct (PrimFloat.ltb 0.05 f); reflexivity.
Qed.

Lemma rms_test :
  py_gt (get (PyFloat <$> fs) "rms_mean" (PyInt 0))
    (PyFloat (energy_threshold init)) = Ret (sufficient_energy fs).
Proof.
  rewrite get_fmap. unfold sufficient_energy, feature.
  destruct (fs !! "rms_mean"); reflexivity.
Qed.

Lemma centroid_test :
  py_gt (get (PyFloat <$> fs) "spectral_centroid" (PyInt 0)) (PyInt 1000)
  = Ret (bright_spectrum fs).
Proof.
  rewrite get_fmap. unfold bright_spectrum, feature.
  destruct (fs !! "spectral_centroid") as [f |]; [| reflexivity].
  cbv [default from_option id py_gt py_lt]. f_equal.
  apply (int_lt_float_is_ltb 1000 1000%float f 8796093022208000 (-43));
    reflexivity.
Qed.

Lemma rolloff_test :
  py_gt (get (PyFloat <$> fs) "spectral_rolloff" (PyInt 0)) (PyInt 2000)
  = Ret (high_rolloff fs).
Proof.
  rewrite get_fmap. unfold high_rolloff, feature.
  destruct (fs !! "spectral_rolloff") as [f |]; [| reflexivity].
  cbv [default from_option id py_gt py_lt]. f_equal.
  apply (int_lt_float_is_ltb 2000 2000%float f 8796093022208000 (-42));
    reflexivity.
Qed.

End DetectEatingOnFloats.

(** From the outcomes of the four tests, the detector answers the sum of
    the weights of those that passed, and detects when it reaches 0.6. *)
Lemma tally_of_outcomes (b1 b2 b3 b4 : bool) :
  exists conf,
    AudioProcessor.tally AudioProcessor.init (Ret b1) (Ret b2) (Ret b3) (Ret b4)
    = Ret (PrimFloat.leb 0.6
             (AudioProcessor.float_sum (AudioProcessor.weights_of b1 b2 b3 b4)),
           conf)
    /\ as_float conf
       = Ret (AudioProcessor.float_sum (AudioProcessor.weights_of b1 b2 b3 b4)).
Proof.
  exists (if b1 || b2 || b3 || b4
          then PyFloat (AudioProcessor.float_sum
                          (AudioProcessor.weights_of b1 b2 b3 b4))
          else PyInt 0).
  destruct b1, b2, b3, b4; split; vm_compute; reflexivity.
Qed.

(** [orders] lists every rearrangement. *)
Lemma insert_all_middle {A} (x : A) (l1 l2 : list A) :
  In (l1 ++ x :: l2)%list (AudioProcessor.insert_all x (l1 ++ l2)%list).
Proof.
  induction l1 as [| y l1 IH]; cbn.
  - destruct l2; cbn; auto.
  - right. apply in_map. exact IH.
Qed.

Lemma orders_complete {A} (l k : list A) :
  Permutation l k -> In k (AudioProcessor.orders l).
Proof.
  revert k. induction l as [| x l IH]; intros k Hp.
  - apply Permutation_nil in Hp. subst. left. reflexivity.
  - assert (Hin : In x k) by (apply (Permutation_in _ Hp); left; reflexivity).
    apply in_split in Hin. destruct Hin as (l1 & l2 & ->).
    apply Permutation_cons_app_inv in Hp.
    cbn [AudioProcessor.orders]. apply in_flat_map.
    exists (l1 ++ l2)%list. split; [apply IH, Hp | apply insert_all_middle].
Qed.

(** The sum of the weights that passed does not depend on the order in
    which they are added. *)
Lemma weight_sum_any_order (b1 b2 b3 b4 : bool) (k : list float) :
  Permutation (AudioProcessor.weights_of b1 b2 b3 b4) k ->
  AudioProcessor.float_sum k
  = AudioProcessor.float_sum (AudioProcessor.weights_of b1 b2 b3 b4).
Proof.
  intros Hp. apply orders_complete in Hp.
  destruct b1, b2, b3, b4;
    cbv [AudioProcessor.weights_of AudioProcessor.orders
           AudioProcessor.insert_all app flat_map map] in Hp;
    cbn [In] in Hp;
    repeat (destruct Hp as [<- | Hp]; [vm_compute; reflexivity |]);
    contradiction.
Qed.

(** C2. For every non-empty mapping of feature names to floats, the
    confidence the detector returns is the sum of the weights of exactly the
    satisfied rows of the table (0.3 for 0.05 < zcr_mean < 0.25, 0.3 for
    rms_mean > 0.02, 0.2 for spectral_centroid > 1000, 0.2 for
    spectral_rolloff > 2000), in whatever order they are added, and eating
    is detected exactly when that sum is at least 0.6.  At the midpoint
    zcr_mean = 0.15, rms_mean = 0.05, spectral_centroid = 1500,
    spectral_rolloff = 2500 the confidence is 1.0 and eating is detected. *)
Theorem detect_eating_confidence_is_weight_sum :
  (forall fs : gmap string float, fs <> ∅ ->
     exists conf,
       AudioProcessor._detect_eating AudioProcessor.init (PyFloat <$> fs)
       = Ret (PrimFloat.leb 0.6 (AudioProcessor.satisfied_weight_sum fs), conf)
       /\ as_float conf = Ret (AudioProcessor.satisfied_weight_sum fs)
       /\ forall k,
            Permutation (AudioProcessor.satisfied_weights fs) k ->
            as_float conf = Ret (AudioProcessor.float_sum k))
  /\ AudioProcessor._detect_eating AudioProcessor.init
       (PyFloat <$> AudioProcessor.midpoint_features)
     = Ret (true, PyFloat 1).
Proof.
  split; [| vm_compute; reflexivity].
  intros fs Hne.
  rewrite detect_eating_tally.
  - rewrite zcr_test, rms_test, centroid_test, rolloff_test.
    destruct (tally_of_outcomes (AudioProcessor.rhythmic_zcr fs)
                (AudioProcessor.sufficient_energy fs)
                (AudioProcessor.bright_spectrum fs)
                (AudioProcessor.high_rolloff fs)) as (conf & E1 & E2).
    exists conf. split; [exact E1 |]. split; [exact E2 |].
    intros k Hp. rewrite E2. f_equal. symmetry.
    apply weight_sum_any_order. exact Hp.
  - rewrite map_size_fmap. intros E. apply map_size_empty_iff in E.
    contradiction.
Qed.

(** The detector on a mapping that holds the energy alone: one row passes,
    the confidence is 0.3 and nothing is detected. *)
Lemma detect_eating_confidence_is_weight_sum_witness :
  exists conf,
    AudioProcessor._detect_eating AudioProcessor.init
      (PyFloat <$> <["rms_mean" := 0.05%float]> ∅)
    = Ret (false, conf)
    /\ as_float conf = Ret 0.3%float.
Proof.
  destruct (proj1 detect_eating_confidence_is_weight_sum
              (<["rms_mean" := 0.05%float]> ∅) (insert_non_empty _ _ _))
    as (conf & E1 & E2 & _).
  exists conf. split; [exact E1 | exact E2].
Defined.

(** Whatever the four tests do (pass, fail or raise), the detector answers,
    and its confidence is a sum of a sub-list of the weights. *)
Lemma tally_in_subset_sums (r1 r2 r3 r4 : res bool) :
  exists detected conf c,
    AudioProcessor.tally AudioProcessor.init r1 r2 r3 r4 = Ret (detected, conf)
    /\ as_float conf = Ret c
    /\ In c AudioProcessor.subset_sums
    /\ PrimFloat.leb 0 c = true /\ PrimFloat.leb c 1 = true.
Proof.
  destruct r1 as [[] | e1], r2 as [[] | e2], r3 as [[] | e3], r4 as [[] | e4];
    do 3 eexists;
    (split; [vm_compute; reflexivity |]);
    (split; [vm_compute; reflexivity |]);
    (split; [in_list | split; reflexivity]).
Qed.

(** C10. For every feature mapping, empty and malformed ones included (a
    value may be an int, a float such as a NaN, or no number at all), the
    detector returns, and the confidence it returns is one of the sums of a
    sub-list of the weights 0.3, 0.3, 0.2, 0.2; so 0.0 <= confidence <= 1.0
    although nothing clamps it. *)
Theorem detect_eating_confidence_in_subset_sums
    (features : gmap string pyval) :
  exists detected conf c,
    AudioProcessor._detect_eating AudioProcessor.init features
    = Ret (detected, conf)
    /\ as_float conf = Ret c
    /\ In c AudioProcessor.subset_sums
    /\ PrimFloat.leb 0 c = true /\ PrimFloat.leb c 1 = true.
Proof.
  destruct (Nat.eq_dec (size features) 0%nat) as [E | NE].
  - unfold AudioProcessor._detect_eating. rewrite E. cbn [Nat.eqb].
    exists false, (PyFloat 0), 0%float.
    split; [reflexivity |]. split; [reflexivity |].
    split; [in_list | split; reflexivity].
  - rewrite (detect_eating_tally _ _ NE). apply tally_in_subset_sums.
Qed.

(** The sums of the sub-lists of the weights are nine numbers. *)
Lemma subset_sums_values (c : float) :
  In c AudioProcessor.subset_sums ->
  In c [0; 0.2; 0.3; 0.4; 0.5; 0.6; 0.7; 0.8; 1]%float.
Proof.
  intros Hin. vm_compute in Hin.
  repeat (destruct Hin as [<- | Hin]; [in_list |]). contradiction.
Qed.

(** ** The audio analysis *)

Lemma Ret_inj {A} (a b : A) : Ret a = Ret b -> a = b.
Proof. intros E. inversion E. reflexivity. Qed.

Section AnalyzeAudio.

Import AudioProcessor.

Context `{Librosa}.

(** The extractor never raises. *)
Lemma extract_features_returns (audio : list float) (sr : Z) :
  exists features, _extract_features audio sr = Ret features.
Proof.
  unfold _extract_features.
  destruct (zero_crossing_rate audio); cbn [bind try_except]; eauto.
  destruct (rms audio); cbn [bind try_except]; eauto.
  destruct (spectral_centroid audio sr); cbn [bind try_except]; eauto.
  destruct (spectral_rolloff audio sr); cbn [bind try_except]; eauto.
Qed.

(** It answers the empty mapping exactly when one of the feature functions
    raises. *)
Lemma extract_features_empty_iff (audio : list float) (sr : Z) :
  _extract_features audio sr = Ret ∅ <->
  raises (zero_crossing_rate audio) \/ raises (rms audio)
  \/ raises (spectral_centroid audio sr) \/ raises (spectral_rolloff audio sr).
Proof.
  unfold _extract_features, raises.
  destruct (zero_crossing_rate audio) as [zcr | e1]; cbn [bind try_except];
    [| split; eauto].
  destruct (rms audio) as [r | e2]; cbn [bind try_except];
    [| split; eauto].
  destruct (spectral_centroid audio sr) as [sc | e3]; cbn [bind try_except];
    [| split; eauto 6].
  destruct (spectral_rolloff audio sr) as [so | e4]; cbn [bind try_except];
    [| split; eauto 6].
  split.
  - intros E. apply Ret_inj in E. exfalso.
    exact (insert_non_empty _ _ _ E).
  - intros [[e E] | [[e E] | [[e E] | [e E]]]]; discriminate.
Qed.

(** The analysis never raises. *)
Lemma analyze_audio_returns (self : t) (audio_bytes : list Byte.byte)
    (sample_rate : Z) :
  exists r, analyze_audio self audio_bytes sample_rate = Ret r.
Proof.
  unfold analyze_audio.
  match goal with |- context [try_except ?b _] => destruct b end;
    cbn [try_except]; eauto.
Qed.

(** C5. For an empty or malformed audio buffer, one on which the extraction
    of features fails (the buffer does not decode, or the extractor answers
    the empty-feature sentinel), the analysis returns, without raising, a
    result with eating_detected false and confidence 0.0. *)
Theorem analyze_audio_unusable_buffer (self : t)
    (audio_bytes : list Byte.byte) (sample_rate : Z) :
  extraction_fails audio_bytes sample_rate ->
  exists r,
    analyze_audio self audio_bytes sample_rate = Ret r
    /\ eating_detected r = false /\ confidence r = 0%float.
Proof.
  unfold extraction_fails, analyze_audio.
  destruct (frombuffer_int16 audio_bytes) as [samples | e];
    cbn [bind try_except].
  - intros ->. cbn [bind]. unfold _detect_eating.
    rewrite map_size_empty. cbn. eauto.
  - intros _. eauto.
Qed.

End AnalyzeAudio.

(** The empty buffer, with a library that refuses an empty signal. *)
Lemma analyze_audio_unusable_buffer_witness :
  exists r,
    @AudioProcessor.analyze_audio AudioProcessor.stub_librosa
      AudioProcessor.init [] 16000 = Ret r
    /\ AudioProcessor.eating_detected r = false
    /\ AudioProcessor.confidence r = 0%float.
Proof.
  apply (@analyze_audio_unusable_buffer AudioProcessor.stub_librosa
           AudioProcessor.init [] 16000).
  reflexivity.
Defined.

(** A buffer of odd size does not decode; the analysis answers the same. *)
Example analyze_audio_odd_buffer :
  @AudioProcessor.analyze_audio AudioProcessor.stub_librosa
    AudioProcessor.init [Byte.x01] 16000
  = Ret {| AudioProcessor.eating_detected := false;
           AudioProcessor.confidence := 0;
           AudioProcessor.audio_features := None |}.
Proof. reflexivity. Qed.

(** ** Strings: lowering and the substring test *)

Lemma append_cons (c : ascii) (a r : string) :
  String c a ++ r = String c (a ++ r).
Proof. reflexivity. Qed.

Lemma append_empty (r : string) : EmptyString ++ r = r.
Proof. reflexivity. Qed.

Lemma prefix_iff (a b : string) :
  String.prefix a b = true <-> exists rest, b = a ++ rest.
Proof.
  revert b. induction a as [| c a IH]; intros b.
  - split; [intros _; exists b; reflexivity | intros _; destruct b; reflexivity].
  - destruct b as [| d b]; cbn [String.prefix].
    + split; [discriminate | intros [rest E]; discriminate].
    + setoid_rewrite append_cons.
      destruct (Ascii.ascii_dec c d) as [-> | NE].
      * rewrite IH. split; intros [rest E]; exists rest; congruence.
      * split; [discriminate | intros [rest E]; congruence].
Qed.

(** [contains] finds the needle wherever it stands. *)
Lemma contains_iff (needle hay : string) :
  contains needle hay = true <->
  exists before after, hay = before ++ needle ++ after.
Proof.
  induction hay as [| c hay IH]; cbn [contains].
  - rewrite orb_false_r, prefix_iff. split.
    + intros [rest E]. exists EmptyString, rest. exact E.
    + intros [[| d before] [after E]]; [exists after; exact E |].
      discriminate.
  - rewrite orb_true_iff, prefix_iff, IH. split.
    + intros [[rest E] | [before [after E]]].
      * exists EmptyString, rest. exact E.
      * exists (String c before), after. rewrite append_cons. congruence.
    + intros [[| d before] [after E]].
      * left. exists after. exact E.
      * right. exists before, after. rewrite append_cons in E. congruence.
Qed.

Lemma lower_app (a b : string) : lower (a ++ b) = lower a ++ lower b.
Proof.
  induction a as [| c a IH]; [reflexivity |].
  rewrite append_cons. cbn [lower]. rewrite append_cons. congruence.
Qed.

(** A stretch of the lowered text is the lowering of a stretch of the
    text. *)
Lemma lower_split (s a b : string) :
  lower s = a ++ b ->
  exists s1 s2, s = s1 ++ s2 /\ lower s1 = a /\ lower s2 = b.
Proof.
  revert s. induction a as [| c a IH]; intros s E.
  - exists EmptyString, s. auto.
  - destruct s as [| d s]; [discriminate |].
    rewrite append_cons in E. cbn [lower] in E. injection E as Ec E.
    destruct (IH s E) as (s1 & s2 & -> & <- & <-).
    exists (String d s1), s2. cbn [lower]. rewrite Ec. auto.
Qed.

(** The test of the analyzer, [kw in text.lower()], is the occurrence of
    [kw] in [text] up to case. *)
Lemma contains_lower_iff (kw text : string) :
  contains kw (lower text) = true <->
  SentimentAnalyzer.occurs_ignoring_case kw text.
Proof.
  unfold SentimentAnalyzer.occurs_ignoring_case. rewrite contains_iff. split.
  - intros (b & a & E).
    destruct (lower_split _ _ _ E) as (s1 & s23 & -> & <- & E').
    destruct (lower_split _ _ _ E') as (s2 & s3 & -> & <- & <-).
    exists s1, s2, s3. auto.
  - intros (s1 & s2 & s3 & -> & <-).
    exists (lower s1), (lower s3). rewrite !lower_app. reflexivity.
Qed.

(** ** Keyword extraction *)

Lemma sublist_In {A} (l k : list A) (x : A) :
  sublist l k -> In x l -> In x k.
Proof.
  induction 1 as [| y l k _ IH | y l k _ IH]; cbn; intuition.
Qed.

Lemma filter_sublist {A} (f : A -> bool) (k : list A) :
  sublist (List.filter f k) k.
Proof.
  induction k as [| x k IH]; cbn; [constructor |].
  destruct (f x); now constructor.
Qed.

(** Among the lists that keep the order of [k], membership pins the
    filtered list down. *)
Lemma sublist_filter_unique {A} (f : A -> bool) (l k : list A) :
  List.NoDup k ->
  sublist l k ->
  (forall x, In x l <-> In x k /\ f x = true) ->
  l = List.filter f k.
Proof.
  intros Hnd Hsub. induction Hsub as [| x l k Hsub IH | x l k Hsub IH];
    intros Hmem.
  - reflexivity.
  - inversion Hnd as [| ? ? Hx Hk]; subst.
    assert (Hfx : f x = true) by (apply Hmem; left; reflexivity).
    cbn [List.filter]. rewrite Hfx. f_equal. apply IH; [exact Hk |].
    intros y. split.
    + intros Hy. split; [exact (sublist_In _ _ _ Hsub Hy) |].
      apply Hmem. right. exact Hy.
    + intros [Hy Hfy].
      destruct (proj2 (Hmem y) (conj (or_intror Hy) Hfy)) as [-> | Hl];
        [contradiction | exact Hl].
  - inversion Hnd as [| ? ? Hx Hk]; subst.
    assert (Hfx : f x = false).
    { destruct (f x) eqn:E; [| reflexivity]. exfalso. apply Hx.
      apply (sublist_In _ _ _ Hsub). apply Hmem. split; [left |]; auto. }
    cbn [List.filter]. rewrite Hfx. apply IH; [exact Hk |].
    intros y. split.
    + intros Hy. split; [exact (sublist_In _ _ _ Hsub Hy) |].
      apply Hmem. exact Hy.
    + intros [Hy Hfy]. apply Hmem. split; [right |]; auto.
Qed.

Lemma reflection_keywords_NoDup :
  List.NoDup SentimentAnalyzer.reflection_keywords.
Proof.
  unfold SentimentAnalyzer.reflection_keywords.
  repeat (constructor; [cbn; intuition discriminate |]). constructor.
Qed.

(** C9. For every text, the extracted keyword tags are exactly the trigger
    words that occur in the text up to case, listed in the order the
    trigger-word set is defined and not in the order of the text: a trigger
    word is extracted if and only if it occurs; the extracted list keeps the
    order of the set; and it is the only such list.  In "Calm but I FEEL
    rushed" the words come out as feel, rushed, calm. *)
Theorem extract_keywords_in_set_order (text : string) :
  (forall kw,
     In kw (SentimentAnalyzer._extract_keywords text) <->
     In kw SentimentAnalyzer.reflection_keywords
     /\ SentimentAnalyzer.occurs_ignoring_case kw text)
  /\ sublist (SentimentAnalyzer._extract_keywords text)
       SentimentAnalyzer.reflection_keywords
  /\ (forall l,
        sublist l SentimentAnalyzer.reflection_keywords ->
        (forall kw,
           In kw l <->
           In kw SentimentAnalyzer.reflection_keywords
           /\ SentimentAnalyzer.occurs_ignoring_case kw text) ->
        l = SentimentAnalyzer._extract_keywords text)
  /\ SentimentAnalyzer._extract_keywords "Calm but I FEEL rushed"
     = ["feel"; "rushed"; "calm"].
Proof.
  unfold SentimentAnalyzer._extract_keywords.
  split; [| split; [| split]].
  - intros kw. rewrite filter_In, contains_lower_iff. reflexivity.
  - apply filter_sublist.
  - intros l Hsub Hmem.
    apply sublist_filter_unique;
      [apply reflection_keywords_NoDup | exact Hsub |].
    intros kw. rewrite Hmem, contains_lower_iff. reflexivity.
  - vm_compute. reflexivity.
Qed.

(** A text is reflective exactly when some keyword is extracted from it. *)
Lemma is_reflective_iff_keywords (text : string) :
  SentimentAnalyzer._is_reflective text = true <->
  SentimentAnalyzer._extract_keywords text <> [].
Proof.
  unfold SentimentAnalyzer._is_reflective, SentimentAnalyzer._extract_keywords.
  induction SentimentAnalyzer.reflection_keywords as [| kw k IH]; cbn.
  - split; [discriminate | congruence].
  - destruct (contains kw (lower text)); cbn; [| exact IH].
    split; [discriminate | reflexivity].
Qed.

(** ** The reflection analyzer *)

Section AnalyzeReflection.

Import SentimentAnalyzer.

Context `{Services}.

(** The classifier sends its request, once, and never raises: a failure of
    the exchange is answered by neutral and no tone indicator. *)
Lemma analyze_with_llm_eq (text : string) (log : list chat_request) :
  _analyze_with_llm text log =
  (try_except (read_reply (chat_completions_create (request_for text)))
     (fun _ => Ret (NEUTRAL, JDict [])),
   (log ++ [request_for text])%list).
Proof.
  unfold _analyze_with_llm, read_reply, io_try_except, io_bind, io_request,
    io_lift, io_ret.
  destruct (chat_completions_create (request_for text)) as [choices | e];
    [| reflexivity]. cbn [bind try_except].
  destruct (index0 choices) as [result_text | e]; [| reflexivity].
  cbn [bind try_except].
  destruct (json_loads_content result_text) as [result | e]; [| reflexivity].
  cbn [bind try_except].
  destruct (dict_get result "sentiment" (JStr "neutral")) as [s | e];
    [| reflexivity]. cbn [bind try_except].
  destruct (_parse_sentiment s) as [sentiment | e]; [| reflexivity].
  cbn [bind try_except].
  destruct (dict_get result "tone_indicators" (JDict [])) as [tone | e];
    reflexivity.
Qed.

Lemma analyze_with_llm_returns (text : string) (log : list chat_request) :
  exists sentiment tone,
    _analyze_with_llm text log =
    (Ret (sentiment, tone), (log ++ [request_for text])%list).
Proof.
  rewrite analyze_with_llm_eq.
  destruct (read_reply _) as [[sentiment tone] | e]; cbn [try_except]; eauto.
Qed.

Lemma llm_failure_fallback (text : string) (log : list chat_request) :
  llm_call_fails text ->
  _analyze_with_llm text log =
  (Ret (NEUTRAL, JDict []), (log ++ [request_for text])%list).
Proof.
  intros [e Hfail]. rewrite analyze_with_llm_eq, Hfail. reflexivity.
Qed.

Lemma new_default_analysis (text : string) :
  new_ReflectionAnalysis text NEUTRAL false [] (JDict [])
  = Ret (default_analysis text).
Proof. reflexivity. Qed.

(** The analyzer by cases: the text is not reflective and nothing is sent;
    or the request is sent and the analysis is built from the answer, or,
    when its validation fails, replaced by the default. *)
Lemma analyze_reflection_cases (text : string) (log : list chat_request) :
  (_is_reflective text = false
   /\ analyze_reflection text log = (Ret (default_analysis text), log))
  \/ (_is_reflective text = true
      /\ exists sentiment tone r,
           _analyze_with_llm text log =
           (Ret (sentiment, tone), (log ++ [request_for text])%list)
           /\ analyze_reflection text log =
              (Ret r, (log ++ [request_for text])%list)
           /\ (r = default_analysis text
               \/ exists tone_map,
                    validate_tone_indicators tone = Ret tone_map
                    /\ r = {| text := text; sentiment := sentiment;
                              is_reflective := true;
                              keywords := _extract_keywords text;
                              tone_indicators := tone_map |})).
Proof.
  unfold analyze_reflection, io_try_except, io_bind.
  destruct (_is_reflective text) eqn:Hrefl; cbn [negb].
  - right. split; [reflexivity |].
    destruct (analyze_with_llm_returns text log) as (sentiment & tone & E).
    rewrite E. exists sentiment, tone.
    unfold io_lift, new_ReflectionAnalysis.
    destruct (validate_tone_indicators tone) as [tone_map | e] eqn:Hv;
      cbn [bind].
    + eexists. split; [reflexivity |]. split; [reflexivity |].
      right. exists tone_map. split; reflexivity.
    + eexists. split; [reflexivity |]. split; [reflexivity |].
      left. reflexivity.
  - left. split; reflexivity.
Qed.

End AnalyzeReflection.

Section AnalyzeReflectionClaims.

Import SentimentAnalyzer.

Context `{Services}.

(** C1, as the code has it.  For every reflective text, if the
    language-understanding call fails (the request raises on a transport
    error or a timeout, or its answer cannot be read as a JSON object with a
    sentiment string), the analyzer sends its one request and returns an
    analysis with sentiment neutral and no tone indicator, in which
    is_reflective is true and the keywords are the trigger words found in
    the text, at least one. *)
Theorem analyze_reflection_llm_failure (text : string)
    (log : list chat_request) :
  _is_reflective text = true ->
  llm_call_fails text ->
  analyze_reflection text log =
  (Ret {| text := text; sentiment := NEUTRAL; is_reflective := true;
          keywords := _extract_keywords text; tone_indicators := ∅ |},
   (log ++ [request_for text])%list)
  /\ _extract_keywords text <> [].
Proof.
  intros Hrefl Hfail. split; [| apply is_reflective_iff_keywords, Hrefl].
  unfold analyze_reflection, io_try_except, io_bind.
  rewrite Hrefl. cbn [negb]. rewrite (llm_failure_fallback _ _ Hfail).
  reflexivity.
Qed.

(** C7. Every analysis the analyzer produces (it always produces one)
    satisfies: is_reflective false implies sentiment neutral, no keyword and
    no tone indicator. *)
Theorem analyze_reflection_invariant (text : string)
    (log : list chat_request) :
  exists r,
    fst (analyze_reflection text log) = Ret r
    /\ (is_reflective r = false ->
        sentiment r = NEUTRAL /\ keywords r = []
        /\ tone_indicators r = ∅).
Proof.
  destruct (analyze_reflection_cases text log)
    as [[_ E] | [_ (s & tone & r & _ & E & Hr)]]; rewrite E; cbn [fst].
  - exists (default_analysis text). auto.
  - exists r. split; [reflexivity |].
    destruct Hr as [-> | (tone_map & _ & ->)]; cbn; [auto | discriminate].
Qed.

(** C8. For every text, the analyzer sends exactly one language-
    understanding request when the text passes the keyword test, and none
    when it does not. *)
Theorem analyze_reflection_requests (text : string)
    (log : list chat_request) :
  snd (analyze_reflection text log) =
  if _is_reflective text then (log ++ [request_for text])%list else log.
Proof.
  destruct (analyze_reflection_cases text log)
    as [[Hrefl E] | [Hrefl (s & tone & r & _ & E & _)]];
    rewrite E, Hrefl; reflexivity.
Qed.

End AnalyzeReflectionClaims.

(** C1 as stated fails: the endpoint times out on "i feel stressed about
    that meal", a reflective text, and the analysis returned says
    is_reflective true and lists two keywords; it is not the all-default
    analysis. *)
Lemma analyze_reflection_llm_failure_not_default :
  SentimentAnalyzer._is_reflective "i feel stressed about that meal" = true
  /\ @SentimentAnalyzer.llm_call_fails SentimentAnalyzer.unreachable_services
       "i feel stressed about that meal"
  /\ exists r,
       fst (@SentimentAnalyzer.analyze_reflection
              SentimentAnalyzer.unreachable_services
              "i feel stressed about that meal" [])
       = Ret r
       /\ SentimentAnalyzer.is_reflective r = true
       /\ SentimentAnalyzer.keywords r = ["feel"; "stressed"]
       /\ r <> SentimentAnalyzer.default_analysis
                 "i feel stressed about that meal".
Proof.
  split; [vm_compute; reflexivity |].
  split; [eexists; vm_compute; reflexivity |].
  eexists. split; [vm_compute; reflexivity |].
  split; [reflexivity |]. split; [reflexivity |].
  intros E. apply (f_equal SentimentAnalyzer.is_reflective) in E.
  discriminate E.
Qed.

(** The same text, with an endpoint whose answer is no JSON. *)
Lemma analyze_reflection_llm_failure_witness :
  @SentimentAnalyzer.analyze_reflection SentimentAnalyzer.garbled_services
    "i feel stressed about that meal" [] =
  (Ret {| SentimentAnalyzer.text := "i feel stressed about that meal";
          SentimentAnalyzer.sentiment := SentimentAnalyzer.NEUTRAL;
          SentimentAnalyzer.is_reflective := true;
          SentimentAnalyzer.keywords :=
            SentimentAnalyzer._extract_keywords
              "i feel stressed about that meal";
          SentimentAnalyzer.tone_indicators := ∅ |},
   ([] ++ [SentimentAnalyzer.request_for "i feel stressed about that meal"])%list)
  /\ SentimentAnalyzer._extract_keywords "i feel stressed about that meal"
     <> [].
Proof.
  apply (@analyze_reflection_llm_failure SentimentAnalyzer.garbled_services).
  - vm_compute. reflexivity.
  - eexists. vm_compute. reflexivity.
Defined.

(** An answer that parses, but whose tone indicators are no mapping, fails
    the validation of the analysis: there the all-default analysis is
    returned, after the one request. *)
Example analyze_reflection_invalid_tone :
  @SentimentAnalyzer.analyze_reflection
    (SentimentAnalyzer.canned_services
       (SentimentAnalyzer.JDict
          [("sentiment", SentimentAnalyzer.JStr "stressed");
           ("tone_indicators", SentimentAnalyzer.JInt 5)]))
    "i feel stressed" [] =
  (Ret (SentimentAnalyzer.default_analysis "i feel stressed"),
   [SentimentAnalyzer.request_for "i feel stressed"]).
Proof. vm_compute. reflexivity. Qed.

(** An answer that parses to a list, not an object, counts as a failure of
    the call: neutral, no tone indicator, and the reflection is kept. *)
Example analyze_reflection_not_an_object :
  exists r,
    fst (@SentimentAnalyzer.analyze_reflection
           (SentimentAnalyzer.canned_services
              (SentimentAnalyzer.JList [SentimentAnalyzer.JStr "calm"]))
           "that was too fast" []) = Ret r
    /\ SentimentAnalyzer.sentiment r = SentimentAnalyzer.NEUTRAL
    /\ SentimentAnalyzer.is_reflective r = true
    /\ SentimentAnalyzer.keywords r = ["was"; "too fast"].
Proof. eexists. split; [vm_compute; reflexivity |]. repeat split. Qed.

(** An answer in the expected shape. *)
Example analyze_reflection_stressed :
  exists r,
    fst (@SentimentAnalyzer.analyze_reflection
           (SentimentAnalyzer.canned_services
              (SentimentAnalyzer.JDict
                 [("sentiment", SentimentAnalyzer.JStr "Stressed");
                  ("tone_indicators",
                   SentimentAnalyzer.JDict
                     [("stressed_score", SentimentAnalyzer.JFloat 0.9)])]))
           "i feel stressed" []) = Ret r
    /\ SentimentAnalyzer.sentiment r = SentimentAnalyzer.STRESSED
    /\ SentimentAnalyzer.is_reflective r = true
    /\ SentimentAnalyzer.tone_indicators r !! "stressed_score"
       = Some 0.9%float.
Proof. eexists. split; [vm_compute; reflexivity |]. repeat split. Qed.

(** ** The feedback policy *)

Section Cooldown.

Import FeedbackManager.

Context `{Backend}.



(** C4. For every user, if the lookup of the last feedback time raises, the
    cooldown check fails open: sending is permitted. *)
Theorem can_send_feedback_fails_open (self : t) (uid : string) :
  raises (get_last_feedback_time uid) ->
  _can_send_feedback self uid = Ret true.
Proof.
  intros [e E]. unfold _can_send_feedback. rewrite E. reflexivity.
Qed.

(** The check never raises. *)
Lemma can_send_feedback_returns (self : t) (uid : string) :
  exists b, _can_send_feedback self uid = Ret b.
Proof.
  unfold _can_send_feedback.
  destruct (get_last_feedback_time uid) as [[last |] | e];
    cbn [bind try_except]; eauto.
Qed.

(** Without [force], a suppressed feedback sends nothing and answers
    [False]; a permitted one hands the message of its type (or the
    slow-down message) to the notification client. *)
Lemma send_feedback_suppressed (self : t) (uid feedback_type : string)
    (log : list notification) :
  _can_send_feedback self uid = Ret false ->
  send_feedback self uid feedback_type false log = (Ret false, log).
Proof.
  intros E. unfold send_feedback, io_try_except, io_bind, io_lift.
  rewrite E. reflexivity.
Qed.

Lemma send_feedback_permitted (cooldown : Z) (uid feedback_type : string)
    (log : list notification) :
  _can_send_feedback (init cooldown) uid = Ret true ->
  exists message,
    snd (send_feedback (init cooldown) uid feedback_type false log)
    = (log ++ [(uid, message)])%list.
Proof.
  intros E. unfold send_feedback, io_try_except, io_bind, io_lift,
    io_request, io_ret.
  rewrite E. cbn [negb].
  change (getitem (messages (init cooldown)) "slow_down")
    with (Ret (A := string)
            "Take a deep breath 🌿 Eating slowly helps digestion and mindfulness.").
  cbv beta iota.
  eexists.
  destruct (send_notification uid _); reflexivity.
Qed.

End Cooldown.


(** The history is down: the check permits. *)
Lemma can_send_feedback_fails_open_witness :
  @FeedbackManager._can_send_feedback
    (FeedbackManager.backend_down (FeedbackManager.seconds 1000))
    (FeedbackManager.init 300) "uid-1" = Ret true.
Proof.
  apply (@can_send_feedback_fails_open
           (FeedbackManager.backend_down (FeedbackManager.seconds 1000))).
  eexists. reflexivity.
Defined.

(** With the history down and no [force], the notification goes out. *)
Example send_feedback_history_down :
  @FeedbackManager.send_feedback
    (FeedbackManager.backend_down (FeedbackManager.seconds 1000))
    (FeedbackManager.init 300) "uid-1" "rushed" false [] =
  (Ret true, [("uid-1", "Slow down ⏸️ Enjoy each bite and savor your meal.")]).
Proof. vm_compute. reflexivity. Qed.

(** ** The rushed-meal rule *)


(** The spec's own figures through the Python arithmetic: the int 900 times
    the float 0.5 is the float 450.0, and the durations compare with it as
    the rule says. *)
Example rushed_threshold_in_floats :
  PrimFloat.mul (Z2float 900) 0.5 = 450%float
  /\ py_lt (PyInt 400) (PyFloat 450) = Ret true
  /\ py_lt (PyInt 500) (PyFloat 450) = Ret false
  /\ py_lt (PyInt 450) (PyFloat 450) = Ret false.
Proof. repeat split. Qed.

(* ===================================================================== *)
(** * Further properties of the code *)
(* ===================================================================== *)

(** ** The detector, read as a rule *)

Lemma tally_detects (b1 b2 b3 b4 : bool) :
  exists conf,
    AudioProcessor.tally AudioProcessor.init (Ret b1) (Ret b2) (Ret b3) (Ret b4)
    = Ret ((b1 && b2) || ((b1 || b2) && b3 && b4), conf).
Proof.
  exists (if b1 || b2 || b3 || b4
          then PyFloat (AudioProcessor.float_sum
                          (AudioProcessor.weights_of b1 b2 b3 b4))
          else PyInt 0).
  destruct b1, b2, b3, b4; vm_compute; reflexivity.
Qed.

(** X1. On every mapping of feature names to floats, the empty one
    included, eating is detected exactly when both heavy tests pass (rhythm
    and energy), or one of them passes together with both spectral tests. *)
Theorem detect_eating_rule (fs : gmap string float) :
  exists conf,
    AudioProcessor._detect_eating AudioProcessor.init (PyFloat <$> fs)
    = Ret ((AudioProcessor.rhythmic_zcr fs
            && AudioProcessor.sufficient_energy fs)
           || ((AudioProcessor.rhythmic_zcr fs
                || AudioProcessor.sufficient_energy fs)
               && AudioProcessor.bright_spectrum fs
               && AudioProcessor.high_rolloff fs),
           conf).
Proof.
  destruct (Nat.eq_dec (size fs) 0%nat) as [E | NE].
  - apply map_size_empty_iff in E. subst fs. eexists. vm_compute.
    reflexivity.
  - rewrite detect_eating_tally by (rewrite map_size_fmap; exact NE).
    rewrite zcr_test, rms_test, centroid_test, rolloff_test.
    apply tally_detects.
Qed.

(** X2. The detector reads four features and two thresholds, nothing else:
    two non-empty mappings that agree on zcr_mean, rms_mean,
    spectral_centroid and spectral_rolloff, under processors that agree on
    the energy and confidence thresholds, get the same answer, whatever
    else the mappings hold (zcr_std for one) and whatever zcr_threshold
    is. *)
Theorem detect_eating_reads_four_features
    (self self' : AudioProcessor.t) (features features' : gmap string pyval) :
  features <> ∅ -> features' <> ∅ ->
  AudioProcessor.energy_threshold self = AudioProcessor.energy_threshold self' ->
  AudioProcessor.eating_confidence_threshold self
  = AudioProcessor.eating_confidence_threshold self' ->
  (forall key,
     In key ["zcr_mean"; "rms_mean"; "spectral_centroid"; "spectral_rolloff"] ->
     features !! key = features' !! key) ->
  AudioProcessor._detect_eating self features
  = AudioProcessor._detect_eating self' features'.
Proof.
  intros Hne Hne' He Hc Hkeys.
  rewrite !detect_eating_tally
    by (intros E; apply map_size_empty_iff in E; contradiction).
  unfold AudioProcessor.get, AudioProcessor.tally.
  rewrite He, Hc, !Hkeys by (cbn; tauto). reflexivity.
Qed.

Lemma detect_eating_reads_four_features_witness :
  AudioProcessor._detect_eating AudioProcessor.init
    (<["zcr_std" := PyFloat 0.5]> (<["rms_mean" := PyFloat 0.05]> ∅))
  = AudioProcessor._detect_eating
      {| AudioProcessor.eating_confidence_threshold := 0.6;
         AudioProcessor.zcr_threshold := 0.9;
         AudioProcessor.energy_threshold := 0.02 |}
      (<["rms_mean" := PyFloat 0.05]> ∅).
Proof.
  apply detect_eating_reads_four_features;
    [apply insert_non_empty | apply insert_non_empty
    | reflexivity | reflexivity |].
  intros key [<- | [<- | [<- | [<- | []]]]]; reflexivity.
Defined.

(** ** Decoding the audio buffer *)

Lemma int16_of_bytes_range (lo hi : Byte.byte) :
  -32768 <= AudioProcessor.int16_of_bytes lo hi <= 32767.
Proof.
  unfold AudioProcessor.int16_of_bytes.
  pose proof (Byte.to_N_bounded lo). pose proof (Byte.to_N_bounded hi).
  destruct (Z.ltb_spec (Z.of_N (Byte.to_N lo) + 256 * Z.of_N (Byte.to_N hi))
              32768); lia.
Qed.

Lemma frombuffer_int16_by_length (n : nat) (buf : list Byte.byte) :
  (length buf <= n)%nat ->
  if Nat.even (length buf)
  then exists samples,
         AudioProcessor.frombuffer_int16 buf = Ret samples
         /\ length buf = (2 * length samples)%nat
         /\ Forall (fun x => -32768 <= x <= 32767) samples
  else AudioProcessor.frombuffer_int16 buf = Raise ValueError.
Proof.
  revert buf. induction n as [| n IH]; intros buf Hlen.
  - destruct buf; [| cbn in Hlen; lia]. exists []. cbn. auto.
  - destruct buf as [| lo [| hi rest]].
    + exists []. cbn. auto.
    + reflexivity.
    + cbn [length Nat.even AudioProcessor.frombuffer_int16].
      assert (Hrest : (length rest <= n)%nat) by (cbn in Hlen; lia).
      specialize (IH rest Hrest).
      destruct (Nat.even (length rest)).
      * destruct IH as (samples & -> & Hl & Hall).
        exists (AudioProcessor.int16_of_bytes lo hi :: samples).
        cbn [bind length]. split; [reflexivity |]. split; [lia |].
        constructor; [apply int16_of_bytes_range | exact Hall].
      * rewrite IH. reflexivity.
Qed.

(** X3. A buffer of even size decodes to half as many samples, each a
    16-bit signed integer; a buffer of odd size does not decode
    ([ValueError]), whatever it holds. *)
Theorem frombuffer_int16_length (buf : list Byte.byte) :
  if Nat.even (length buf)
  then exists samples,
         AudioProcessor.frombuffer_int16 buf = Ret samples
         /\ length buf = (2 * length samples)%nat
         /\ Forall (fun x => -32768 <= x <= 32767) samples
  else AudioProcessor.frombuffer_int16 buf = Raise ValueError.
Proof. apply (frombuffer_int16_by_length (length buf)). lia. Qed.

Lemma all_from_spec (fuel : nat) :
  forall z test, all_from fuel z test = true ->
  forall x, z <= x < z + Z.of_nat fuel -> test x = true.
Proof.
  induction fuel as [| k IH]; intros z test Hall x Hx; [lia |].
  cbn [all_from] in Hall. apply andb_true_iff in Hall.
  destruct Hall as [H0 H1].
  destruct (Z.eq_dec x z) as [-> | NE]; [exact H0 |].
  apply (IH (z + 1) test H1). lia.
Qed.

Lemma int16_count_eq : Z.of_nat int16_count = 65536.
Proof. vm_compute. reflexivity. Qed.

(** Every 16-bit sample, normalized, lies in [-1, 1): by evaluation of the
    65536 quotients. *)
Lemma normalize_range_checked :
  all_from int16_count (-32768) in_unit_range = true.
Proof. vm_compute. reflexivity. Qed.

Lemma normalize_range (sample : Z) :
  -32768 <= sample <= 32767 ->
  PrimFloat.leb (-1) (AudioProcessor.normalize sample) = true
  /\ PrimFloat.ltb (AudioProcessor.normalize sample) 1 = true.
Proof.
  intros Hr. apply andb_true_iff.
  change (in_unit_range sample = true).
  apply (all_from_spec int16_count (-32768) in_unit_range
           normalize_range_checked sample).
  rewrite int16_count_eq. lia.
Qed.

(** X4. The signal handed to the feature extractor is normalized: whatever
    the buffer, every sample of the decoded signal, divided by 32768, is a
    float x with -1 <= x < 1 (the comment of the source says [-1, 1]; 1 is
    never reached). *)
Theorem normalized_signal_in_unit_range (buf : list Byte.byte)
    (samples : list Z) :
  AudioProcessor.frombuffer_int16 buf = Ret samples ->
  Forall (fun x => PrimFloat.leb (-1) x = true /\ PrimFloat.ltb x 1 = true)
    (map AudioProcessor.normalize samples).
Proof.
  intros Hdec. pose proof (frombuffer_int16_by_length _ buf (le_n _)) as Hlen.
  destruct (Nat.even (length buf)); [| congruence].
  destruct Hlen as (samples' & E & _ & Hall).
  assert (samples' = samples) by congruence. subst samples'.
  apply Forall_map. apply (Forall_impl _ _ _ Hall).
  intros x Hx. apply normalize_range, Hx.
Qed.

Lemma normalized_signal_in_unit_range_witness :
  Forall (fun x => PrimFloat.leb (-1) x = true /\ PrimFloat.ltb x 1 = true)
    (map AudioProcessor.normalize [-32768; 32767]).
Proof.
  apply (normalized_signal_in_unit_range
           [Byte.x00; Byte.x80; Byte.xff; Byte.x7f]).
  reflexivity.
Defined.

(** ** The audio analysis, end to end *)

Section AnalyzeAudioEndToEnd.

Import AudioProcessor.

Context `{Librosa}.

Lemma detect_eating_on_floats (fs : gmap string float) :
  fs <> ∅ ->
  exists conf,
    _detect_eating init (PyFloat <$> fs)
    = Ret (PrimFloat.leb 0.6 (satisfied_weight_sum fs), conf)
    /\ as_float conf = Ret (satisfied_weight_sum fs).
Proof.
  intros Hne. rewrite detect_eating_tally.
  - rewrite zcr_test, rms_test, centroid_test, rolloff_test.
    apply tally_of_outcomes.
  - rewrite map_size_fmap. intros E. apply map_size_empty_iff in E.
    contradiction.
Qed.

(** X5. When the buffer decodes and the four feature functions succeed on
    the normalized signal, the analysis returns the five extracted features
    (means and the deviation) as audio_features, the sum of the weights
    they satisfy as confidence, and detects eating exactly when that sum
    reaches 0.6. *)
Theorem analyze_audio_end_to_end (audio_bytes : list Byte.byte)
    (sample_rate : Z) (samples : list Z) (zcr r sc so : list float) :
  frombuffer_int16 audio_bytes = Ret samples ->
  zero_crossing_rate (map normalize samples) = Ret zcr ->
  rms (map normalize samples) = Ret r ->
  spectral_centroid (map normalize samples) sample_rate = Ret sc ->
  spectral_rolloff (map normalize samples) sample_rate = Ret so ->
  analyze_audio init audio_bytes sample_rate =
  Ret {| eating_detected :=
           PrimFloat.leb 0.6
             (satisfied_weight_sum (features_of_frames zcr r sc so));
         confidence := satisfied_weight_sum (features_of_frames zcr r sc so);
         audio_features := Some (PyFloat <$> features_of_frames zcr r sc so) |}.
Proof.
  intros Hdec Hz Hr Hc Ho.
  unfold analyze_audio, _extract_features.
  rewrite Hdec. cbn [bind]. rewrite Hz. cbn [bind]. rewrite Hr. cbn [bind].
  rewrite Hc. cbn [bind]. rewrite Ho. cbn [bind try_except].
  set (fs := features_of_frames zcr r sc so).
  assert (Hmap :
    <["zcr_mean" := PyFloat (np_mean zcr)]>
      (<["zcr_std" := PyFloat (np_std zcr)]>
      (<["rms_mean" := PyFloat (np_mean r)]>
      (<["spectral_centroid" := PyFloat (np_mean sc)]>
      (<["spectral_rolloff" := PyFloat (np_mean so)]> ∅))))
    = PyFloat <$> fs).
  { unfold fs, features_of_frames. rewrite !fmap_insert, fmap_empty.
    reflexivity. }
  rewrite Hmap.
  destruct (detect_eating_on_floats fs) as (conf & E1 & E2).
  { unfold fs, features_of_frames. apply insert_non_empty. }
  rewrite E1. cbn [bind]. rewrite E2. reflexivity.
Qed.

End AnalyzeAudioEndToEnd.

(** One loud sample with the stand-in library: the energy test alone
    passes. *)
Lemma analyze_audio_end_to_end_witness :
  @AudioProcessor.analyze_audio AudioProcessor.stub_librosa
    AudioProcessor.init [Byte.x00; Byte.x40] 16000 =
  Ret {| AudioProcessor.eating_detected := false;
         AudioProcessor.confidence := 0.3;
         AudioProcessor.audio_features :=
           Some (PyFloat <$>
                   @features_of_frames AudioProcessor.stub_librosa
                     [0.5%float] [0.5%float] [0.5%float] [0.5%float]) |}.
Proof.
  exact (@analyze_audio_end_to_end AudioProcessor.stub_librosa
           [Byte.x00; Byte.x40] 16000 [16384]
           [0.5%float] [0.5%float] [0.5%float] [0.5%float]
           eq_refl eq_refl eq_refl eq_refl eq_refl).
Defined.
(** ** Sentiment names *)

Lemma lower_ascii_idem (c : ascii) : lower_ascii (lower_ascii c) = lower_ascii c.
Proof. destruct c as [[] [] [] [] [] [] [] []]; reflexivity. Qed.

Lemma lower_idem (s : string) : lower (lower s) = lower s.
Proof.
  induction s as [| c s IH]; [reflexivity |].
  cbn [lower]. rewrite lower_ascii_idem, IH. reflexivity.
Qed.

Lemma sentiment_map_names (key : string)
    (t : SentimentAnalyzer.SentimentType) :
  SentimentAnalyzer.sentiment_map !! key = Some t ->
  key = Database.sentiment_value t.
Proof.
  intros Hl. apply elem_of_list_to_map_2 in Hl.
  repeat (apply elem_of_cons in Hl as [Hl | Hl];
          [inversion Hl; reflexivity |]).
  apply elem_of_nil in Hl. contradiction.
Qed.

Lemma parse_sentiment_only_names (s : string)
    (t : SentimentAnalyzer.SentimentType) :
  SentimentAnalyzer._parse_sentiment (SentimentAnalyzer.JStr s) = Ret t ->
  t <> SentimentAnalyzer.NEUTRAL ->
  lower s = Database.sentiment_value t.
Proof.
  intros Hp Hn. unfold SentimentAnalyzer._parse_sentiment in Hp.
  apply Ret_inj in Hp.
  destruct (SentimentAnalyzer.sentiment_map !! lower s) as [t' |] eqn:Hl;
    cbn in Hp; [| congruence].
  subst t'. apply sentiment_map_names, Hl.
Qed.

(** X6. Sentiment names parse back to their members: the value of every
    member of SentimentType parses to that member; the case of letters does
    not matter; and a string parses to a member other than neutral only if
    it is, up to case, the value of that member (every other string is
    neutral). *)
Theorem parse_sentiment_round_trip :
  (forall t,
     SentimentAnalyzer._parse_sentiment
       (SentimentAnalyzer.JStr (Database.sentiment_value t)) = Ret t)
  /\ (forall s,
        SentimentAnalyzer._parse_sentiment (SentimentAnalyzer.JStr (lower s))
        = SentimentAnalyzer._parse_sentiment (SentimentAnalyzer.JStr s))
  /\ (forall s t,
        SentimentAnalyzer._parse_sentiment (SentimentAnalyzer.JStr s) = Ret t ->
        t <> SentimentAnalyzer.NEUTRAL ->
        lower s = Database.sentiment_value t).
Proof.
  split; [| split].
  - intros []; vm_compute; reflexivity.
  - intros s. unfold SentimentAnalyzer._parse_sentiment.
    rewrite lower_idem. reflexivity.
  - exact parse_sentiment_only_names.
Qed.

(** ** Keywords and context *)

Lemma append_assoc (a b c : string) : (a ++ b) ++ c = a ++ b ++ c.
Proof.
  induction a as [| x a IH]; [reflexivity |].
  rewrite !append_cons, IH. reflexivity.
Qed.

Lemma contains_in_context (kw before text after : string) :
  contains kw (lower text) = true ->
  contains kw (lower (before ++ text ++ after)) = true.
Proof.
  rewrite !contains_iff. intros (b & a & E).
  exists (lower before ++ b), (a ++ lower after).
  rewrite !lower_app, E, !append_assoc. reflexivity.
Qed.

Lemma filter_sublist_mono {A} (f g : A -> bool) (l : list A) :
  (forall x, f x = true -> g x = true) ->
  sublist (List.filter f l) (List.filter g l).
Proof.
  intros Hfg. induction l as [| x l IH]; cbn; [constructor |].
  destruct (f x) eqn:Ef.
  - rewrite (Hfg x Ef). now constructor.
  - destruct (g x); [now constructor | exact IH].
Qed.

(** X7. Matching is by substring, so context only adds: the keywords
    extracted from a text are extracted, in the same order, from every text
    that contains it (inside a longer word as well), and a reflective text
    stays reflective whatever is put before and after it. *)
Theorem keywords_grow_with_context (before text after : string) :
  sublist (SentimentAnalyzer._extract_keywords text)
    (SentimentAnalyzer._extract_keywords (before ++ text ++ after))
  /\ (SentimentAnalyzer._is_reflective text = true ->
      SentimentAnalyzer._is_reflective (before ++ text ++ after) = true).
Proof.
  split.
  - apply filter_sublist_mono. intros kw. apply contains_in_context.
  - unfold SentimentAnalyzer._is_reflective. rewrite !existsb_exists.
    intros (kw & Hin & Hc). exists kw. split; [exact Hin |].
    apply contains_in_context, Hc.
Qed.

(** X8. A keyword that lies inside another comes with it: whenever a
    keyword is extracted, so is every keyword of the set that it contains
    ("feeling" never comes without "feel"). *)
Theorem keyword_inside_keyword (text kw kw' : string) :
  In kw SentimentAnalyzer.reflection_keywords ->
  In kw' (SentimentAnalyzer._extract_keywords text) ->
  contains kw kw' = true ->
  In kw (SentimentAnalyzer._extract_keywords text).
Proof.
  unfold SentimentAnalyzer._extract_keywords. rewrite !filter_In.
  intros Hin [_ Hc'] Hsub. split; [exact Hin |].
  apply contains_iff in Hc'. destruct Hc' as (b & a & E).
  apply contains_iff in Hsub. destruct Hsub as (b' & a' & ->).
  apply contains_iff. exists (b ++ b'), (a' ++ a).
  rewrite E, !append_assoc. reflexivity.
Qed.

Lemma keyword_inside_keyword_witness :
  In "feel" (SentimentAnalyzer._extract_keywords "No FEELING of hurry").
Proof.
  apply (keyword_inside_keyword "No FEELING of hurry" "feel" "feeling").
  - left. reflexivity.
  - vm_compute. right. left. reflexivity.
  - reflexivity.
Defined.

(** ** The analysis and its provenance *)

Section AnalysisProvenance.

Import SentimentAnalyzer.

Context `{Services}.

Lemma read_reply_sentiment (answer : res (list (option string)))
    (t : SentimentType) (tone : json) :
  read_reply answer = Ret (t, tone) ->
  t <> NEUTRAL ->
  exists content rest members s,
    answer = Ret (Some content :: rest)
    /\ json_loads content = Ret (JDict members)
    /\ assoc "sentiment" members = Some (JStr s)
    /\ lower s = Database.sentiment_value t.
Proof.
  unfold read_reply. intros Hr Hn.
  destruct answer as [[| [content |] rest] | e]; try discriminate.
  cbn [bind index0 json_loads_content] in Hr.
  destruct (json_loads content) as [[| | | | | | members] | e] eqn:Hj;
    try discriminate.
  cbn [bind dict_get] in Hr.
  destruct (assoc "sentiment" members) as [v |] eqn:Ha.
  - cbv [default from_option id] in Hr.
    destruct v as [| | | | s | |]; try discriminate.
    cbn [_parse_sentiment bind] in Hr.
    assert (Hp : _parse_sentiment (JStr s) = Ret t).
    { cbn [_parse_sentiment]. f_equal.
      apply Ret_inj in Hr. congruence. }
    exists content, rest, members, s.
    split; [reflexivity |]. split; [exact Hj |]. split; [exact Ha |].
    exact (parse_sentiment_only_names s t Hp Hn).
  - cbv [default from_option id] in Hr.
    assert (Hneu : _parse_sentiment (JStr "neutral") = Ret NEUTRAL)
      by (vm_compute; reflexivity).
    rewrite Hneu in Hr. cbn [bind] in Hr.
    apply Ret_inj in Hr. congruence.
Qed.

(** X9. The analyzer never invents a sentiment: an analysis whose
    sentiment is not neutral is reflective, and the service answered the
    request with a first choice whose content parses to a JSON object with
    that sentiment, up to case, as its "sentiment" member. *)
Theorem sentiment_comes_from_reply (text : string)
    (log : list chat_request) (r : ReflectionAnalysis) :
  fst (analyze_reflection text log) = Ret r ->
  sentiment r <> NEUTRAL ->
  is_reflective r = true
  /\ exists content rest members s,
       chat_completions_create (request_for text) = Ret (Some content :: rest)
       /\ json_loads content = Ret (JDict members)
       /\ assoc "sentiment" members = Some (JStr s)
       /\ lower s = Database.sentiment_value (sentiment r).
Proof.
  intros Hr Hn.
  destruct (analyze_reflection_cases text log)
    as [[_ E] | [_ (s & tone & r' & Hllm & E & Hcase)]];
    rewrite E in Hr; cbn [fst] in Hr; apply Ret_inj in Hr; subst r.
  - contradiction Hn. reflexivity.
  - destruct Hcase as [-> | (tone_map & _ & ->)];
      [contradiction Hn; reflexivity |].
    cbn [sentiment is_reflective] in *. split; [reflexivity |].
    rewrite analyze_with_llm_eq in Hllm.
    assert (Hread :
      read_reply (chat_completions_create (request_for text)) = Ret (s, tone)).
    { destruct (read_reply _) as [[s' tone'] | e]; cbn [try_except] in Hllm.
      - congruence.
      - exfalso. apply Hn. congruence. }
    exact (read_reply_sentiment _ _ _ Hread Hn).
Qed.

(** X10. Every analysis carries the text it was asked about, and it is
    reflective exactly when it lists a keyword; its keywords are then the
    trigger words found in the text. *)
Theorem analysis_reflective_iff_keywords (text : string)
    (log : list chat_request) :
  exists r,
    fst (analyze_reflection text log) = Ret r
    /\ SentimentAnalyzer.text r = text
    /\ (is_reflective r = true <-> keywords r <> [])
    /\ (is_reflective r = true -> keywords r = _extract_keywords text).
Proof.
  destruct (analyze_reflection_cases text log)
    as [[_ E] | [Hrefl (s & tone & r & _ & E & Hcase)]];
    rewrite E; cbn [fst].
  - exists (default_analysis text). split; [reflexivity |].
    split; [reflexivity |].
    cbn [default_analysis is_reflective keywords].
    split; [split |]; congruence.
  - exists r. split; [reflexivity |].
    destruct Hcase as [-> | (tone_map & _ & ->)];
      cbn [default_analysis SentimentAnalyzer.text is_reflective keywords].
    + split; [reflexivity |]. split; [split |]; congruence.
    + split; [reflexivity |]. split; [| reflexivity].
      split; [intros _; apply is_reflective_iff_keywords, Hrefl | reflexivity].
Qed.

End AnalysisProvenance.

Lemma sentiment_comes_from_reply_witness :
  SentimentAnalyzer.is_reflective
    {| SentimentAnalyzer.text := "i feel stressed";
       SentimentAnalyzer.sentiment := SentimentAnalyzer.STRESSED;
       SentimentAnalyzer.is_reflective := true;
       SentimentAnalyzer.keywords := ["feel"; "stressed"];
       SentimentAnalyzer.tone_indicators := ∅ |} = true
  /\ exists content rest members s,
       @SentimentAnalyzer.chat_completions_create
         (SentimentAnalyzer.canned_services
            (SentimentAnalyzer.JDict
               [("sentiment", SentimentAnalyzer.JStr "Stressed")]))
         (SentimentAnalyzer.request_for "i feel stressed")
       = Ret (Some content :: rest)
       /\ @SentimentAnalyzer.json_loads
            (SentimentAnalyzer.canned_services
               (SentimentAnalyzer.JDict
                  [("sentiment", SentimentAnalyzer.JStr "Stressed")]))
            content = Ret (SentimentAnalyzer.JDict members)
       /\ SentimentAnalyzer.assoc "sentiment" members
          = Some (SentimentAnalyzer.JStr s)
       /\ lower s = Database.sentiment_value SentimentAnalyzer.STRESSED.
Proof.
  apply (@sentiment_comes_from_reply
           (SentimentAnalyzer.canned_services
              (SentimentAnalyzer.JDict
                 [("sentiment", SentimentAnalyzer.JStr "Stressed")]))
           "i feel stressed" []).
  - vm_compute. reflexivity.
  - discriminate.
Defined.

(** ** The transcript processor *)

Section ProcessTranscript.

Import TranscriptProcessor.

Context `{SentimentAnalyzer.Services}.

(** X11. The processor never raises, and it has two gates: it returns an
    analysis only when the joined text passes both its own trigger test and
    the analyzer's keyword test, and then the analysis is the analyzer's and
    is reflective; the one request to the language service is sent exactly
    when both gates pass, otherwise none is. *)
Theorem process_transcript_two_gates (payload : TranscriptWebhookPayload)
    (log : list SentimentAnalyzer.chat_request) :
  exists result,
    process_transcript payload log =
    (Ret result,
     if _is_reflection (full_text payload)
        && SentimentAnalyzer._is_reflective (full_text payload)
     then (log ++ [SentimentAnalyzer.request_for (full_text payload)])%list
     else log)
    /\ (forall r,
          result = Some r ->
          _is_reflection (full_text payload) = true
          /\ SentimentAnalyzer._is_reflective (full_text payload) = true
          /\ fst (SentimentAnalyzer.analyze_reflection (full_text payload) log)
             = Ret r
          /\ SentimentAnalyzer.is_reflective r = true).
Proof.
  unfold process_transcript, io_try_except, io_bind, io_ret.
  fold (full_text payload).
  destruct (_is_reflection (full_text payload)) eqn:Htrig; cbn [negb andb].
  - destruct (analyze_reflection_cases (full_text payload) log)
      as [[Hrefl E] | [Hrefl (s & tone & r & _ & E & Hcase)]];
      rewrite E, Hrefl.
    + cbn [SentimentAnalyzer.default_analysis SentimentAnalyzer.is_reflective].
      exists None. split; [reflexivity | discriminate].
    + destruct (SentimentAnalyzer.is_reflective r) eqn:Hr.
      * exists (Some r). split; [reflexivity |].
        intros r' [= <-]. auto.
      * exists None. split; [reflexivity | discriminate].
  - exists None. split; [reflexivity | discriminate].
Qed.

End ProcessTranscript.

Lemma join_holds_part (sep part : string) (parts : list string) :
  In part parts ->
  exists before after,
    TranscriptProcessor.join sep parts = before ++ part ++ after.
Proof.
  induction parts as [| p [| q rest] IH]; intros Hin.
  - contradiction.
  - destruct Hin as [-> | []]. exists EmptyString, EmptyString.
    cbn [TranscriptProcessor.join]. rewrite append_empty.
    clear. induction part as [| c part IH]; [reflexivity |].
    rewrite append_cons. congruence.
  - change (TranscriptProcessor.join sep (p :: q :: rest))
      with (p ++ sep ++ TranscriptProcessor.join sep (q :: rest)).
    destruct Hin as [-> | Hin].
    + exists EmptyString, (sep ++ TranscriptProcessor.join sep (q :: rest)).
      reflexivity.
    + destruct (IH Hin) as (b & a & ->).
      exists (p ++ sep ++ b), a. rewrite !append_assoc. reflexivity.
Qed.

(** X12. A trigger phrase spoken within one segment is never lost by the
    joining: if the text of some segment of the payload holds a trigger
    phrase, up to case, the joined text passes the trigger test. *)
Theorem trigger_in_a_segment (payload : TranscriptProcessor.TranscriptWebhookPayload)
    (segment : TranscriptProcessor.TranscriptSegment) (trigger : string) :
  In segment (TranscriptProcessor.segments payload) ->
  In trigger TranscriptProcessor.reflection_triggers ->
  SentimentAnalyzer.occurs_ignoring_case trigger
    (TranscriptProcessor.text segment) ->
  TranscriptProcessor._is_reflection (TranscriptProcessor.full_text payload)
  = true.
Proof.
  intros Hseg Htrig Hocc.
  unfold TranscriptProcessor._is_reflection. apply existsb_exists.
  exists trigger. split; [exact Htrig |].
  apply contains_lower_iff in Hocc.
  destruct (join_holds_part " " (TranscriptProcessor.text segment)
              (map TranscriptProcessor.text (TranscriptProcessor.segments payload)))
    as (b & a & E).
  { apply in_map, Hseg. }
  unfold TranscriptProcessor.full_text. rewrite E.
  apply contains_in_context, Hocc.
Qed.

Lemma trigger_in_a_segment_witness :
  TranscriptProcessor._is_reflection
    (TranscriptProcessor.full_text
       {| TranscriptProcessor.uid := "uid-1";
          TranscriptProcessor.segments :=
            [{| TranscriptProcessor.text := "Lunch is over.";
                TranscriptProcessor.timestamp := 0;
                TranscriptProcessor.speaker := None |};
             {| TranscriptProcessor.text := "I ATE too much";
                TranscriptProcessor.timestamp := 1;
                TranscriptProcessor.speaker := Some "me" |}];
          TranscriptProcessor.payload_timestamp := 2 |}) = true.
Proof.
  apply (trigger_in_a_segment _
           {| TranscriptProcessor.text := "I ATE too much";
              TranscriptProcessor.timestamp := 1;
              TranscriptProcessor.speaker := Some "me" |} "i ate").
  - right. left. reflexivity.
  - vm_compute. tauto.
  - exists EmptyString, "I ATE", " too much". split; reflexivity.
Defined.

(** The gates differ: "i ate" opens the first and no keyword the second,
    so nothing is sent and nothing returned. *)
Example process_transcript_trigger_without_keyword :
  @TranscriptProcessor.process_transcript SentimentAnalyzer.unreachable_services
    {| TranscriptProcessor.uid := "uid-1";
       TranscriptProcessor.segments :=
         [{| TranscriptProcessor.text := "I ate lunch";
             TranscriptProcessor.timestamp := 0;
             TranscriptProcessor.speaker := None |}];
       TranscriptProcessor.payload_timestamp := 0 |} []
  = (Ret None, []).
Proof. vm_compute. reflexivity. Qed.

(** ** The Omi client *)

Section OmiRequests.

Import OmiClient.

Context `{Http}.

(** X13. Sending a notification never raises and posts exactly one request:
    to the notification address of the app, the user and the message as
    query parameters, no body, the app secret as bearer token.  The answer
    is [True] exactly when the transport answered with status 200; any
    other status, and a transport that raises, give [False]. *)
Theorem send_notification_outcome (self : t) (uid message : string)
    (log : list http_request) :
  let request :=
    {| url := base_url self ++ "/v2/integrations/" ++ app_id self
              ++ "/notification";
       params := Some [("uid", uid); ("message", message)];
       json_payload := None;
       headers := [("Authorization", "Bearer " ++ app_secret self);
                   ("Content-Type", "application/json")];
       timeout := 10 |} in
  exists sent,
    send_notification self uid message log
    = (Ret sent, (log ++ [request])%list)
    /\ (sent = true <->
        exists response,
          post request = Ret response /\ status_code response = 200).
Proof.
  intros request.
  unfold send_notification, io_try_except, io_bind, io_request, io_ret,
    _get_headers.
  fold request.
  destruct (post request) as [response | e] eqn:E.
  - destruct (status_code response =? 200) eqn:S.
    + exists true. split; [reflexivity |]. split; [| reflexivity].
      intros _. exists response. split; [reflexivity | lia].
    + exists false. split; [reflexivity |]. split; [discriminate |].
      intros (r & [= <-] & S'). lia.
  - exists false. split; [reflexivity |]. split; [discriminate |].
    intros (r & R & _). discriminate.
Qed.

(** X14. Creating a memory never raises and posts exactly one request, to
    the memories address, with a JSON body and no query parameters.  The
    body always carries the user, the title and the content; it carries
    [structured] exactly when structured data was given and is truthy (an
    empty dictionary is dropped).  The answer is [True] exactly when the
    transport answered with status 200 or 201. *)
Theorem create_memory_outcome (self : t) (uid title content : string)
    (structured_data : option SentimentAnalyzer.json)
    (log : list http_request) :
  exists payload sent,
    let request :=
      {| url := base_url self ++ "/v1/memories";
         params := None;
         json_payload := Some payload;
         headers := [("Authorization", "Bearer " ++ app_secret self);
                     ("Content-Type", "application/json")];
         timeout := 10 |} in
    create_memory self uid title content structured_data log
    = (Ret sent, (log ++ [request])%list)
    /\ SentimentAnalyzer.assoc "uid" payload
       = Some (SentimentAnalyzer.JStr uid)
    /\ SentimentAnalyzer.assoc "title" payload
       = Some (SentimentAnalyzer.JStr title)
    /\ SentimentAnalyzer.assoc "content" payload
       = Some (SentimentAnalyzer.JStr content)
    /\ (forall d,
          SentimentAnalyzer.assoc "structured" payload = Some d <->
          structured_data = Some d /\ truthy d = true)
    /\ (sent = true <->
        exists response,
          post request = Ret response
          /\ (status_code response = 200 \/ status_code response = 201)).
Proof.
  unfold create_memory, io_try_except, io_bind, io_request, io_ret,
    _get_headers.
  set (payload :=
         match structured_data with
         | Some d => if truthy d then (_ ++ [("structured", d)])%list else _
         | None => _
         end).
  exists payload.
  match goal with
  | |- context [post ?r] => set (request := r)
  end.
  assert (Hmembers :
    SentimentAnalyzer.assoc "uid" payload = Some (SentimentAnalyzer.JStr uid)
    /\ SentimentAnalyzer.assoc "title" payload
       = Some (SentimentAnalyzer.JStr title)
    /\ SentimentAnalyzer.assoc "content" payload
       = Some (SentimentAnalyzer.JStr content)
    /\ (forall d,
          SentimentAnalyzer.assoc "structured" payload = Some d <->
          structured_data = Some d /\ truthy d = true)).
  { subst payload. destruct structured_data as [d |];
      [destruct (truthy d) eqn:T |].
    - split; [reflexivity |]. split; [reflexivity |].
      split; [reflexivity |]. intros d'.
      change (Some d = Some d' <-> Some d = Some d' /\ truthy d' = true).
      split; [intros [= <-]; auto | tauto].
    - split; [reflexivity |]. split; [reflexivity |].
      split; [reflexivity |]. intros d'.
      change (None = Some d' <-> Some d = Some d' /\ truthy d' = true).
      split; [discriminate | intros [[= <-] T']; congruence].
    - split; [reflexivity |]. split; [reflexivity |].
      split; [reflexivity |]. intros d'.
      change (None = Some d' <-> None = Some d' /\ truthy d' = true).
      split; [discriminate | tauto]. }
  destruct Hmembers as (Hu & Ht & Hc & Hs).
  destruct (post request) as [response | e] eqn:E.
  - destruct ((status_code response =? 200) || (status_code response =? 201))
      eqn:S.
    + exists true. cbv zeta. split; [reflexivity |].
      split; [exact Hu |]. split; [exact Ht |]. split; [exact Hc |].
      split; [exact Hs |]. split; [| reflexivity].
      intros _. exists response. split; [reflexivity | lia].
    + exists false. cbv zeta. split; [reflexivity |].
      split; [exact Hu |]. split; [exact Ht |]. split; [exact Hc |].
      split; [exact Hs |]. split; [discriminate |].
      intros (r & [= <-] & S'). lia.
  - exists false. cbv zeta. split; [reflexivity |].
    split; [exact Hu |]. split; [exact Ht |]. split; [exact Hc |].
    split; [exact Hs |]. split; [discriminate |].
    intros (r & R & _). discriminate.
Qed.

End OmiRequests.

(** Status 201 creates a memory but does not count as a sent notification;
    empty structured data is not posted. *)
Example created_is_not_sent :
  fst (@OmiClient.create_memory (OmiClient.answering 201)
         {| OmiClient.base_url := "https://api.omi.me";
            OmiClient.app_id := "mend"; OmiClient.app_secret := "s3" |}
         "uid-1" "Lunch" "Ate slowly" None []) = Ret true
  /\ fst (@OmiClient.send_notification (OmiClient.answering 201)
         {| OmiClient.base_url := "https://api.omi.me";
            OmiClient.app_id := "mend"; OmiClient.app_secret := "s3" |}
         "uid-1" "Slow down" []) = Ret false.
Proof. split; vm_compute; reflexivity. Qed.

(** ** Sending feedback *)

Section SendFeedback.

Import FeedbackManager.

Context `{Backend}.

Lemma messages_slow_down (cooldown : Z) :
  exists m, messages (init cooldown) !! "slow_down" = Some m.
Proof. eexists. vm_compute. reflexivity. Qed.

Lemma send_feedback_eq (cooldown : Z) (uid feedback_type : string)
    (force : bool) (log : list notification) (m : string) :
  messages (init cooldown) !! "slow_down" = Some m ->
  send_feedback (init cooldown) uid feedback_type force log =
  let message := default m (messages (init cooldown) !! feedback_type) in
  if force || match _can_send_feedback (init cooldown) uid with
              | Ret c => c
              | Raise _ => false
              end
  then (Ret match send_notification uid message with
            | Ret sent => sent
            | Raise _ => false
            end, (log ++ [(uid, message)])%list)
  else (Ret false, log).
Proof.
  intros Hm. unfold send_feedback, io_try_except, io_bind, io_lift,
    io_request, io_ret.
  assert (G : getitem (messages (init cooldown)) "slow_down" = Ret m).
  { unfold getitem. rewrite Hm. reflexivity. }
  destruct force; cbn [orb].
  - rewrite G. cbv zeta.
    destruct (send_notification uid _); reflexivity.
  - destruct (can_send_feedback_returns (init cooldown) uid) as [c ->].
    destruct c; cbn [negb]; [| reflexivity].
    rewrite G. cbv zeta.
    destruct (send_notification uid _); reflexivity.
Qed.

(** X15. Sending feedback never raises.  A notification is handed to the
    client exactly when [force] is set or the cooldown check permits: then
    exactly one is, addressed to the user, and otherwise none.  The
    answer is [True] exactly when one was handed over and the client
    answered [True]; a client that raises gives [False]. *)
Theorem send_feedback_outcome (cooldown : Z) (uid feedback_type : string)
    (force : bool) (log : list notification) :
  exists sent log',
    send_feedback (init cooldown) uid feedback_type force log
    = (Ret sent, log')
    /\ ((force = true \/ _can_send_feedback (init cooldown) uid = Ret true)
        -> exists message,
             log' = (log ++ [(uid, message)])%list
             /\ (sent = true <-> send_notification uid message = Ret true))
    /\ (~ (force = true \/ _can_send_feedback (init cooldown) uid = Ret true)
        -> log' = log /\ sent = false).
Proof.
  destruct (messages_slow_down cooldown) as [m Hm].
  rewrite (send_feedback_eq _ _ _ _ _ _ Hm). cbv zeta.
  destruct (can_send_feedback_returns (init cooldown) uid) as [c E].
  rewrite E.
  destruct (force || c) eqn:P.
  - eexists _, _. split; [reflexivity |]. split.
    + intros _. eexists. split; [reflexivity |].
      destruct (send_notification uid _) as [[|] | e]; split;
        congruence.
    + intros N. exfalso. apply N. apply orb_true_iff in P.
      destruct P as [P | ->]; auto.
  - apply orb_false_iff in P. destruct P as [-> ->].
    exists false, log. split; [reflexivity |]. split.
    + intros [F | F]; discriminate.
    + auto.
Qed.

(** X16. A feedback type the manager has no message for falls back on the
    slow-down message: when a notification goes out for a type other than
    the four known ones, it carries the text filed under [slow_down]. *)
Theorem unknown_feedback_type_slows_down (cooldown : Z)
    (uid feedback_type slow_down : string) (force : bool)
    (log : list notification) :
  ~ In feedback_type ["slow_down"; "mindful"; "stressed"; "rushed"] ->
  messages (init cooldown) !! "slow_down" = Some slow_down ->
  force = true \/ _can_send_feedback (init cooldown) uid = Ret true ->
  snd (send_feedback (init cooldown) uid feedback_type force log)
  = (log ++ [(uid, slow_down)])%list.
Proof.
  intros Hty Hm Hp. rewrite (send_feedback_eq _ _ _ _ _ _ Hm). cbv zeta.
  assert (Hnone : messages (init cooldown) !! feedback_type = None).
  { cbn [messages init].
    rewrite !lookup_insert_ne, lookup_empty; [reflexivity | ..];
      intros <-; apply Hty; cbn; tauto. }
  rewrite Hnone. cbn [default from_option].
  replace (force || _) with true; [reflexivity |].
  symmetry. destruct Hp as [-> | ->]; [reflexivity | apply orb_true_r].
Qed.

End SendFeedback.

Lemma unknown_feedback_type_slows_down_witness :
  snd (@FeedbackManager.send_feedback
         (FeedbackManager.backend_with 0 None) (FeedbackManager.init 300)
         "uid-1" "hurry" false [])
  = [("uid-1",
      "Take a deep breath 🌿 Eating slowly helps digestion and mindfulness.")].
Proof.
  apply (@unknown_feedback_type_slows_down
           (FeedbackManager.backend_with 0 None) 300 "uid-1" "hurry" _
           false []).
  - cbn. intros [E | [E | [E | [E | []]]]]; discriminate.
  - vm_compute. reflexivity.
  - right. reflexivity.
Defined.

(** X17. Once the cooldown has elapsed it stays elapsed: with the same
    history, a check that permits at one reading of the clock permits at
    every later one. *)
Theorem cooldown_stays_elapsed (earlier later : FeedbackManager.Backend)
    (self : FeedbackManager.t) (uid : string) :
  @FeedbackManager.get_last_feedback_time earlier uid
  = @FeedbackManager.get_last_feedback_time later uid ->
  @FeedbackManager.utcnow earlier <= @FeedbackManager.utcnow later ->
  @FeedbackManager._can_send_feedback earlier self uid = Ret true ->
  @FeedbackManager._can_send_feedback later self uid = Ret true.
Proof.
  intros Hh Hnow. unfold FeedbackManager._can_send_feedback.
  rewrite Hh.
  destruct (@FeedbackManager.get_last_feedback_time later uid)
    as [[last |] | e]; cbn [bind try_except]; try reflexivity.
  intros E. apply Ret_inj in E. f_equal.
  apply Qle_bool_iff. apply Qle_bool_iff in E.
  eapply Qle_trans; [exact E |].
  unfold FeedbackManager.total_seconds, Qle. cbn [Qnum Qden]. nia.
Qed.

Lemma cooldown_stays_elapsed_witness :
  @FeedbackManager._can_send_feedback
    (FeedbackManager.backend_with (FeedbackManager.seconds 2000)
       (Some (FeedbackManager.seconds 600)))
    (FeedbackManager.init 300) "uid-1" = Ret true.
Proof.
  apply (cooldown_stays_elapsed
           (FeedbackManager.backend_with (FeedbackManager.seconds 1000)
              (Some (FeedbackManager.seconds 600)))).
  - reflexivity.
  - vm_compute. discriminate.
  - vm_compute. reflexivity.
Defined.



(** ** Feedback over the Omi client *)

Lemma send_notification_eq `{OmiClient.Http} (self : OmiClient.t)
    (uid message : string) (log : list OmiClient.http_request) :
  OmiClient.send_notification self uid message log =
  (Ret match OmiClient.post (notification_request self uid message) with
       | Ret response => OmiClient.status_code response =? 200
       | Raise _ => false
       end,
   (log ++ [notification_request self uid message])%list).
Proof.
  unfold OmiClient.send_notification, io_try_except, io_bind, io_request,
    io_ret.
  change {| OmiClient.url := _; OmiClient.params := _;
            OmiClient.json_payload := _; OmiClient.headers := _;
            OmiClient.timeout := _ |}
    with (notification_request self uid message).
  destruct (OmiClient.post (notification_request self uid message))
    as [response | e]; [| reflexivity].
  destruct (OmiClient.status_code response =? 200); reflexivity.
Qed.

(** X19. The feedback manager over the Omi client: sending feedback answers
    [True] exactly when [force] is set or the cooldown check permits, and
    the transport answers status 200 to the request that carries the
    message handed over for the user. *)
Theorem send_feedback_over_omi `{OmiClient.Http} (client : OmiClient.t)
    (history : string -> res (option FeedbackManager.datetime))
    (now : FeedbackManager.datetime) (cooldown : Z)
    (uid feedback_type : string) (force : bool)
    (log : list FeedbackManager.notification) :
  let backend := OmiClient.as_backend client history now in
  let run :=
    @FeedbackManager.send_feedback backend (FeedbackManager.init cooldown)
      uid feedback_type force log in
  exists sent,
    fst run = Ret sent
    /\ (sent = true <->
        (force = true
         \/ @FeedbackManager._can_send_feedback backend
              (FeedbackManager.init cooldown) uid = Ret true)
        /\ exists message response,
             snd run = (log ++ [(uid, message)])%list
             /\ OmiClient.post
                  {| OmiClient.url :=
                       OmiClient.base_url client ++ "/v2/integrations/"
                       ++ OmiClient.app_id client ++ "/notification";
                     OmiClient.params :=
                       Some [("uid", uid); ("message", message)];
                     OmiClient.json_payload := None;
                     OmiClient.headers :=
                       [("Authorization",
                         "Bearer " ++ OmiClient.app_secret client);
                        ("Content-Type", "application/json")];
                     OmiClient.timeout := 10 |}
                = Ret response
             /\ OmiClient.status_code response = 200).
Proof.
  intros backend run. subst run.
  destruct (messages_slow_down cooldown) as [m Hm].
  rewrite (@send_feedback_eq backend _ _ _ _ _ _ Hm). cbv zeta.
  destruct (@can_send_feedback_returns backend
              (FeedbackManager.init cooldown) uid) as [c E].
  rewrite E.
  set (message := default m _).
  change (@FeedbackManager.send_notification backend uid message)
    with (fst (OmiClient.send_notification client uid message [])).
  rewrite send_notification_eq. cbn [fst].
  fold (notification_request client uid message).
  destruct (force || c) eqn:P; cbn [fst snd].
  - assert (Hp : force = true \/ Ret c = Ret true).
    { apply orb_true_iff in P. destruct P as [P | ->]; auto. }
    destruct (OmiClient.post (notification_request client uid message))
      as [response | e] eqn:R.
    + destruct (OmiClient.status_code response =? 200) eqn:S.
      * exists true. split; [reflexivity |]. split; [| reflexivity].
        intros _. split; [exact Hp |].
        exists message, response. split; [reflexivity |].
        split; [exact R | lia].
      * exists false. split; [reflexivity |]. split; [discriminate |].
        intros (_ & message' & response' & L & R' & S').
        apply app_inj_tail in L. destruct L as [_ [= <-]].
        change (OmiClient.post (notification_request client uid message)
                = Ret response') in R'.
        rewrite R in R'. injection R' as <-. lia.
    + exists false. split; [reflexivity |]. split; [discriminate |].
      intros (_ & message' & response' & L & R' & _).
      apply app_inj_tail in L. destruct L as [_ [= <-]].
      change (OmiClient.post (notification_request client uid message)
              = Ret response') in R'.
      rewrite R in R'. discriminate.
  - exists false. split; [reflexivity |]. split; [discriminate |].
    apply orb_false_iff in P. destruct P as [-> ->].
    intros ([F | F] & _); discriminate.
Qed.

(** ** The event history *)

Section History.

Import Database.

Context `{Firestore}.


Lemma get_weekly_stats_eq (uid : string)
    (week_start : FeedbackManager.datetime) :
  get_weekly_stats uid week_start =
  let events :=
    match week_events uid week_start with
    | Ret events => events
    | Raise _ => []
    end in
  Ret (Some {| total_meals := length (List.filter is_meal events);
               reflections_count :=
                 length (List.filter
                           (fun e => truthy_str (reflection_text e)) events);
               avg_meal_duration :=
                 match durations_of events with
                 | [] => 0%Q
                 | _ => (inject_Z (sum_ints (durations_of events))
                         / inject_Z (Z.of_nat (length (durations_of events))))%Q
                 end;
               sentiment_breakdown := fold_left count_sentiment events ∅ |}).
Proof.
  unfold get_weekly_stats, get_user_events, week_events.
  destruct (stream_user_events uid _ _); reflexivity.
Qed.

(** X21. A store that fails looks like an empty week: when the query for
    the week's events raises, the weekly statistics are still returned, all
    zero and with an empty sentiment breakdown. *)
Theorem weekly_stats_store_failure (uid : string)
    (week_start : FeedbackManager.datetime) :
  raises (stream_user_events uid (Some week_start)
            (Some (week_start + seven_days))) ->
  get_weekly_stats uid week_start =
  Ret (Some {| total_meals := 0; reflections_count := 0;
               avg_meal_duration := 0%Q; sentiment_breakdown := ∅ |}).
Proof.
  intros [e E]. rewrite get_weekly_stats_eq. unfold week_events.
  rewrite E. reflexivity.
Qed.

Lemma sentiment_value_inj (a b : SentimentAnalyzer.SentimentType) :
  sentiment_value a = sentiment_value b -> a = b.
Proof. destruct a, b; (reflexivity || discriminate). Qed.

Lemma events_with_sentiment_cons (s : SentimentAnalyzer.SentimentType)
    (e : MealEvent) (events : list MealEvent) :
  events_with_sentiment s (e :: events) =
  (if has_sentiment s e then 1 else 0) + events_with_sentiment s events.
Proof.
  unfold events_with_sentiment. cbn [List.filter].
  destruct (has_sentiment s e); cbn [length]; lia.
Qed.

Lemma events_with_sentiment_nonneg (s : SentimentAnalyzer.SentimentType)
    (events : list MealEvent) :
  0 <= events_with_sentiment s events.
Proof. unfold events_with_sentiment. lia. Qed.

Lemma count_sentiment_lookup (s : SentimentAnalyzer.SentimentType)
    (events : list MealEvent) (counts : gmap string Z) :
  fold_left count_sentiment events counts !! sentiment_value s =
  if events_with_sentiment s events =? 0 then counts !! sentiment_value s
  else Some (default 0 (counts !! sentiment_value s)
             + events_with_sentiment s events).
Proof.
  revert counts. induction events as [| e events IH]; intros counts.
  - reflexivity.
  - cbn [fold_left]. rewrite IH, events_with_sentiment_cons.
    pose proof (events_with_sentiment_nonneg s events) as Hn.
    set (n := events_with_sentiment s events) in *.
    unfold has_sentiment, count_sentiment.
    destruct (sentiment e) as [s' |]; [| reflexivity].
    destruct (String.eqb_spec (sentiment_value s') (sentiment_value s))
      as [E | NE].
    + rewrite E, lookup_insert_eq.
      destruct (Z.eqb_spec (1 + n) 0) as [Z1 | _]; [lia |].
      destruct (counts !! sentiment_value s) as [c |];
        cbv [default from_option Datatypes.id];
        destruct (Z.eqb_spec n 0) as [Z0 | _]; apply f_equal; lia.
    + rewrite lookup_insert_ne by exact NE. reflexivity.
Qed.

Lemma count_sentiment_keys (events : list MealEvent) (counts : gmap string Z)
    (key : string) :
  (forall s, key <> sentiment_value s) ->
  fold_left count_sentiment events counts !! key = counts !! key.
Proof.
  intros Hkey. revert counts.
  induction events as [| e events IH]; intros counts; [reflexivity |].
  cbn [fold_left]. rewrite IH. unfold count_sentiment.
  destruct (sentiment e) as [s' |]; [| reflexivity].
  apply lookup_insert_ne. intros E. exact (Hkey s' (eq_sym E)).
Qed.

(** X22. The sentiment breakdown of the weekly statistics counts events:
    under the name of a sentiment it holds the number of the week's events
    that carry this sentiment, when there is one, and no entry (not a
    zero) when there is none; it has no other keys than the five sentiment
    names. *)
Theorem sentiment_breakdown_counts (uid : string)
    (week_start : FeedbackManager.datetime) (events : list MealEvent) :
  stream_user_events uid (Some week_start) (Some (week_start + seven_days))
  = Ret events ->
  exists stats,
    get_weekly_stats uid week_start = Ret (Some stats)
    /\ (forall s,
          sentiment_breakdown stats !! sentiment_value s =
          if events_with_sentiment s events =? 0 then None
          else Some (events_with_sentiment s events))
    /\ (forall key count,
          sentiment_breakdown stats !! key = Some count ->
          exists s, key = sentiment_value s).
Proof.
  intros E. rewrite get_weekly_stats_eq. unfold week_events. rewrite E.
  cbv zeta. eexists. split; [reflexivity |]. cbn [sentiment_breakdown].
  split.
  - intros s. rewrite count_sentiment_lookup, lookup_empty.
    cbn [default from_option]. reflexivity.
  - intros key count L.
    destruct (String.eqb_spec key "calm") as [-> |];
      [exists SentimentAnalyzer.CALM; reflexivity |].
    destruct (String.eqb_spec key "stressed") as [-> |];
      [exists SentimentAnalyzer.STRESSED; reflexivity |].
    destruct (String.eqb_spec key "neutral") as [-> |];
      [exists SentimentAnalyzer.NEUTRAL; reflexivity |].
    destruct (String.eqb_spec key "rushed") as [-> |];
      [exists SentimentAnalyzer.RUSHED; reflexivity |].
    destruct (String.eqb_spec key "mindful") as [-> |];
      [exists SentimentAnalyzer.MINDFUL; reflexivity |].
    rewrite count_sentiment_keys, lookup_empty in L; [discriminate |].
    intros []; assumption.
Qed.

End History.

Lemma weekly_stats_store_failure_witness :
  @Database.get_weekly_stats Database.store_down "uid-1" 0 =
  Ret (Some {| Database.total_meals := 0; Database.reflections_count := 0;
               Database.avg_meal_duration := 0%Q;
               Database.sentiment_breakdown := ∅ |}).
Proof.
  apply (@weekly_stats_store_failure Database.store_down "uid-1" 0).
  eexists. reflexivity.
Defined.

Lemma sentiment_breakdown_counts_witness :
  exists stats,
    @Database.get_weekly_stats
      (Database.store_with
         [felt_event SentimentAnalyzer.CALM;
          timed_event Database.MEAL_END 600;
          felt_event SentimentAnalyzer.CALM] [])
      "uid-1" 0 = Ret (Some stats)
    /\ Database.sentiment_breakdown stats !! "calm" = Some 2
    /\ Database.sentiment_breakdown stats !! "rushed" = None.
Proof.
  destruct (@sentiment_breakdown_counts
              (Database.store_with
                 [felt_event SentimentAnalyzer.CALM;
                  timed_event Database.MEAL_END 600;
                  felt_event SentimentAnalyzer.CALM] [])
              "uid-1" 0 _ eq_refl) as (stats & E & Hcount & _).
  exists stats. split; [exact E |]. split.
  - exact (Hcount SentimentAnalyzer.CALM).
  - exact (Hcount SentimentAnalyzer.RUSHED).
Defined.

(** *** Order of the events *)

Lemma filter_length_perm {A} (f : A -> bool) (l l' : list A) :
  Permutation l l' ->
  length (List.filter f l) = length (List.filter f l').
Proof.
  induction 1 as [| x l l' _ IH | x y l | l l' l'' _ IH1 _ IH2];
    cbn [List.filter].
  - reflexivity.
  - destruct (f x); cbn [length]; congruence.
  - destruct (f x), (f y); reflexivity.
  - congruence.
Qed.

Lemma durations_of_perm (l l' : list Database.MealEvent) :
  Permutation l l' ->
  Permutation (Database.durations_of l) (Database.durations_of l').
Proof.
  induction 1 as [| x l l' _ IH | x y l | l l' l'' _ IH1 _ IH2];
    cbn [Database.durations_of].
  - constructor.
  - destruct (Database.duration x) as [d |]; [| exact IH].
    destruct (negb (d =? 0)); [constructor |]; exact IH.
  - destruct (Database.duration x) as [dx |],
             (Database.duration y) as [dy |];
      try destruct (negb (dx =? 0)); try destruct (negb (dy =? 0));
      try reflexivity; apply perm_swap.
  - etransitivity; eassumption.
Qed.

Lemma sum_ints_acc (l : list Z) (a : Z) :
  fold_left Z.add l a = a + Database.sum_ints l.
Proof.
  unfold Database.sum_ints. revert a.
  induction l as [| x l IH]; intros a; cbn [fold_left]; [lia |].
  rewrite (IH (a + x)), (IH (0 + x)). lia.
Qed.

Lemma sum_ints_cons (x : Z) (l : list Z) :
  Database.sum_ints (x :: l) = x + Database.sum_ints l.
Proof.
  unfold Database.sum_ints at 1. cbn [fold_left]. rewrite sum_ints_acc. lia.
Qed.

Lemma sum_ints_perm (l l' : list Z) :
  Permutation l l' -> Database.sum_ints l = Database.sum_ints l'.
Proof.
  induction 1 as [| x l l' _ IH | x y l | l l' l'' _ IH1 _ IH2].
  - reflexivity.
  - rewrite !sum_ints_cons. lia.
  - rewrite !sum_ints_cons. lia.
  - congruence.
Qed.

Lemma count_sentiment_swap (counts : gmap string Z)
    (x y : Database.MealEvent) :
  Database.count_sentiment (Database.count_sentiment counts x) y =
  Database.count_sentiment (Database.count_sentiment counts y) x.
Proof.
  unfold Database.count_sentiment.
  destruct (Database.sentiment x) as [sx |],
           (Database.sentiment y) as [sy |]; try reflexivity.
  destruct (decide (Database.sentiment_value sx = Database.sentiment_value sy))
    as [E | NE].
  - rewrite E. reflexivity.
  - rewrite !lookup_insert_ne by congruence.
    apply insert_insert_ne. congruence.
Qed.

Lemma count_sentiment_perm (l l' : list Database.MealEvent) :
  Permutation l l' ->
  forall counts,
    fold_left Database.count_sentiment l counts =
    fold_left Database.count_sentiment l' counts.
Proof.
  induction 1 as [| x l l' _ IH | x y l | l l' l'' _ IH1 _ IH2];
    intros counts; cbn [fold_left].
  - reflexivity.
  - apply IH.
  - rewrite count_sentiment_swap. reflexivity.
  - rewrite IH1. apply IH2.
Qed.

(** X23. The weekly statistics do not depend on the order in which the
    store returns the events: two stores that answer the same events for
    the week, in any order, give the same statistics. *)
Theorem weekly_stats_order_independent (first second : Database.Firestore)
    (uid : string) (week_start : FeedbackManager.datetime)
    (events events' : list Database.MealEvent) :
  @week_events first uid week_start = Ret events ->
  @week_events second uid week_start = Ret events' ->
  Permutation events events' ->
  @Database.get_weekly_stats first uid week_start =
  @Database.get_weekly_stats second uid week_start.
Proof.
  intros E E' P.
  rewrite (@get_weekly_stats_eq first), (@get_weekly_stats_eq second).
  rewrite E, E'. cbv zeta.
  pose proof (durations_of_perm _ _ P) as PD.
  rewrite (filter_length_perm Database.is_meal _ _ P).
  rewrite (filter_length_perm _ _ _ P).
  rewrite (count_sentiment_perm _ _ P).
  rewrite (sum_ints_perm _ _ PD), (Permutation_length PD).
  destruct (Database.durations_of events) as [| d ds] eqn:D.
  - apply Permutation_nil in PD. rewrite PD. reflexivity.
  - destruct (Database.durations_of events') as [| d' ds'] eqn:D'.
    + symmetry in PD. apply Permutation_nil in PD. discriminate.
    + reflexivity.
Qed.

Lemma weekly_stats_order_independent_witness :
  @Database.get_weekly_stats
    (Database.store_with
       [timed_event Database.MEAL_END 600;
        felt_event SentimentAnalyzer.CALM] [])
    "uid-1" 0 =
  @Database.get_weekly_stats
    (Database.store_with
       [felt_event SentimentAnalyzer.CALM;
        timed_event Database.MEAL_END 600] [])
    "uid-1" 0.
Proof.
  apply (weekly_stats_order_independent _ _ "uid-1" 0
           [timed_event Database.MEAL_END 600;
            felt_event SentimentAnalyzer.CALM]
           [felt_event SentimentAnalyzer.CALM;
            timed_event Database.MEAL_END 600]).
  - reflexivity.
  - reflexivity.
  - apply perm_swap.
Defined.

(** *** The average duration *)



Section AverageDuration.

Import Database.

Context `{Firestore}.


End AverageDuration.

